(** * create-accounts-status: the account-provisioning step handler

    Shallow embedding of
    [constructs/lib/aws-organizations/create-accounts-status/index.ts].

    The Lambda handler is invoked repeatedly by a scheduler.  Every
    invocation scans one pending account request from a DynamoDB table,
    advances it by one step against AWS Organizations and reports whether
    all the work is done.

    The handler is effectful: it reads and writes two DynamoDB tables and
    calls the Organizations API.  It is embedded in a small state-and-
    exception monad over a [World] that holds both tables and the log of
    SDK calls issued so far.  What the outside world answers to each call
    (API responses, HTTP status codes, rejections) is an [Env], so that
    every theorem quantifies over all possible answers.

    The file has two parts: the embedding with the vocabulary of the
    statements, then the lemmas and theorems. *)

From Stdlib Require Import ZArith.
From stdpp Require Import base option list strings gmap fin_maps.

Local Open Scope Z_scope.

(** ** Values read back from JSON *)

(** [JSON.parse] is unchecked: a field declared [string] in the interface
    can hold any JSON value at run time.  Numbers are not inspected by the
    handler; integers stand for them. *)
Inductive JsValue :=
  | JsUndefined
  | JsNull
  | JsBool (b : bool)
  | JsNumber (n : Z)
  | JsString (s : string).

Global Instance JsValue_eq_dec : EqDecision JsValue.
Proof. solve_decision. Defined.

(** [a === b] on the values above. *)
Definition strict_eq (a b : JsValue) : bool := bool_decide (a = b).

(** Truthiness of an optional string: [undefined] and [''] are falsy. *)
Definition truthy (o : option string) : bool :=
  match o with
  | Some s => negb (bool_decide (s = ""))
  | None => false
  end.

(** [`${x}`] for an optional string. *)
Definition template (o : option string) : string :=
  match o with
  | Some s => s
  | None => "undefined"
  end.

(** ** Data model *)

(** interface AccountConfig *)
Record AccountConfig := mkAccountConfig {
  name : string;
  description : string;
  email : string;
  enableGovCloud : JsValue;
  organizationalUnit : string;
  organizationalUnitId : string;
  createRequestId : option string;
}.

Global Instance AccountConfig_eq_dec : EqDecision AccountConfig.
Proof. solve_decision. Defined.

(** [accountConfig.createRequestId = id] *)
Definition set_createRequestId (cfg : AccountConfig) (id : option string)
  : AccountConfig :=
  {| name := name cfg;
     description := description cfg;
     email := email cfg;
     enableGovCloud := enableGovCloud cfg;
     organizationalUnit := organizationalUnit cfg;
     organizationalUnitId := organizationalUnitId cfg;
     createRequestId := id |}.

(** Organizations.CreateAccountStatus: every member is optional. *)
Module CreateAccountStatus.
Record t := mk {
  Id : option string;
  AccountName : option string;
  State : option string;
  AccountId : option string;
  GovCloudAccountId : option string;
  FailureReason : option string;
}.
End CreateAccountStatus.

(** Organizations.CreateAccountResponse, also the shape of
    DescribeCreateAccountStatusResponse. *)
Record CreateAccountResponse := mkCreateAccountResponse {
  CreateAccountStatus : option CreateAccountStatus.t;
}.

(** Organizations.Root, the members the handler reads. *)
Module Root.
Record t := mk {
  Id : option string;
  Name : option string;
}.
End Root.

Record ListRootsResponse := mkListRootsResponse {
  Roots : option (list Root.t);
}.

(** Parameters of createAccount and createGovCloudAccount. *)
Record CreateAccountRequest := mkCreateAccountRequest {
  req_AccountName : string;
  req_Email : string;
  req_RoleName : option string;
}.

(** Parameters of moveAccount.  The source builds them from values behind
    non-null assertions, which do nothing at run time: an absent value
    reaches the SDK as [undefined]. *)
Record MoveAccountRequest := mkMoveAccountRequest {
  move_AccountId : option string;
  move_DestinationParentId : string;
  move_SourceParentId : option string;
}.

(** The accountConfig attribute of a stored item is JSON text.  The text
    is kept by what [JSON.parse] makes of it: the record of an account
    configuration, as [JSON.stringify(accountConfig)] writes it; the text
    [null]; or no JSON at all (the attribute is absent or malformed).
    TypeScript types the parsed value as AccountConfig; texts for other
    values are left out. *)
Inductive AttributeText :=
  | RecordText (cfg : AccountConfig)
  | NullText
  | NotJson.

(** One item of the new-accounts table as a scan returns it. *)
Record ScanItem := mkScanItem {
  accountEmail : string;
  accountConfig : AttributeText;
}.

Record ScanOutput := mkScanOutput {
  Items : option (list ScanItem);
}.

(** The item put into the GovCloud mapping table. *)
Record GovCloudAccountMapping := mkGovCloudAccountMapping {
  commericalAccountId : option string;
  govCloudAccountId : string;
  accountName : option string;
}.

Global Instance GovCloudAccountMapping_eq_dec : EqDecision GovCloudAccountMapping.
Proof. solve_decision. Defined.

(** What the handler resolves to. *)
Record HandlerResult := mkHandlerResult {
  IsComplete : bool;
}.

(** The error of a rejected SDK call. *)
Record AWSError := mkAWSError {
  code : string;
}.

(** What the handler can throw. *)
Inductive Exn :=
  | JsError (message : string)       (* throw new Error(message) *)
  | JsTypeError (message : string)   (* property read on undefined or null *)
  | JsSyntaxError                    (* JSON.parse on text that is not JSON *)
  | SdkRejected (e : AWSError).      (* rejected promise of an SDK call *)

(** ** The world: two tables and the log of SDK calls *)

Inductive SdkCall :=
  | Scan
  | PutAccountConfig (key : string) (cfg : AccountConfig)
  | DeleteAccountConfig (key : string)
  | PutGovCloudMapping (item : GovCloudAccountMapping)
  | CreateAccount (params : CreateAccountRequest)
  | CreateGovCloudAccount (params : CreateAccountRequest)
  | DescribeCreateAccountStatus (requestId : string)
  | ListRoots
  | MoveAccount (params : MoveAccountRequest).

Record World := mkWorld {
  (* table NewOrgAccountsTableName, keyed by accountEmail; a row is kept
     as the record whose JSON text updateAccountConfig writes; an item
     whose accountConfig is some other text reaches the handler through
     the answer of the scan *)
  newOrgAccountsTable : gmap string AccountConfig;
  (* table GovCloudAccountMappingTableName *)
  govCloudAccountMappingTable : gmap string GovCloudAccountMapping;
  (* SDK calls issued so far, oldest first *)
  sdkCalls : list SdkCall;
}.

(** The answers of the outside world.  [throttlingBackOff] retries a call
    until it settles; the environment gives the settled outcome: a
    rejection or the response.  For the calls whose HTTP status code the
    handler inspects the response is that status code. *)
Record Env := mkEnv {
  accountRoleName : option string;
  scan : gmap string AccountConfig → AWSError + ScanOutput;
  put_accountConfig : string → AccountConfig → AWSError + Z;
  delete_accountConfig : string → AWSError + Z;
  put_mapping : GovCloudAccountMapping → AWSError + Z;
  createAccount : CreateAccountRequest → AWSError + CreateAccountResponse;
  createGovCloudAccount_api : CreateAccountRequest → AWSError + CreateAccountResponse;
  describeCreateAccountStatus : string → AWSError + CreateAccountResponse;
  listRoots : AWSError + ListRootsResponse;
  moveAccount : MoveAccountRequest → AWSError + Z;
}.

(** ** The monad *)

Definition Handler (A : Type) : Type := World → (Exn + A) * World.

Definition ret {A} (a : A) : Handler A := λ w, (inr a, w).

Definition throw {A} (e : Exn) : Handler A := λ w, (inl e, w).

Definition bind {A B} (m : Handler A) (k : A → Handler B) : Handler B :=
  λ w, match m w with
       | (inr a, w') => k a w'
       | (inl e, w') => (inl e, w')
       end.

Notation "'let!' x ':=' m 'in' k" := (bind m (λ x, k))
  (at level 10, x name, m at level 100, k at level 200, only parsing).
Notation "'do!' m 'in' k" := (bind m (λ _, k))
  (at level 10, m at level 100, k at level 200, only parsing).

(** The world after one more call in the log. *)
Definition logged (c : SdkCall) (w : World) : World :=
  {| newOrgAccountsTable := newOrgAccountsTable w;
     govCloudAccountMappingTable := govCloudAccountMappingTable w;
     sdkCalls := sdkCalls w ++ [c] |}.

Definition with_newOrgAccounts
    (f : gmap string AccountConfig → gmap string AccountConfig) (w : World)
  : World :=
  {| newOrgAccountsTable := f (newOrgAccountsTable w);
     govCloudAccountMappingTable := govCloudAccountMappingTable w;
     sdkCalls := sdkCalls w |}.

Definition with_govCloudMapping
    (f : gmap string GovCloudAccountMapping → gmap string GovCloudAccountMapping)
    (w : World) : World :=
  {| newOrgAccountsTable := newOrgAccountsTable w;
     govCloudAccountMappingTable := f (govCloudAccountMappingTable w);
     sdkCalls := sdkCalls w |}.

(** Appends a call to the log. *)
Definition issue (c : SdkCall) : Handler unit := λ w, (inr tt, logged c w).

(** Awaiting a settled outcome: a rejection is thrown. *)
Definition settle {A} (o : AWSError + A) : Handler A :=
  match o with
  | inl e => throw (SdkRejected e)
  | inr a => ret a
  end.

Definition read_newOrgAccounts : Handler (gmap string AccountConfig) :=
  λ w, (inr (newOrgAccountsTable w), w).

Definition write_newOrgAccounts
    (f : gmap string AccountConfig → gmap string AccountConfig) : Handler unit :=
  λ w, (inr tt, with_newOrgAccounts f w).

Definition write_govCloudMapping
    (f : gmap string GovCloudAccountMapping → gmap string GovCloudAccountMapping)
  : Handler unit :=
  λ w, (inr tt, with_govCloudMapping f w).

(** ** DynamoDB DocumentClient

    A write takes effect exactly when DynamoDB answers it with status 200;
    [put] replaces the row of the item's key whatever it held. *)

Definition confirmed (statusCode : Z) : bool := bool_decide (statusCode = 200).

(** documentClient.scan({TableName: newOrgAccountsTableName, Limit: 1}) *)
Definition documentClient_scan (env : Env) : Handler ScanOutput :=
  do! issue Scan in
  let! table := read_newOrgAccounts in
  settle (scan env table).

(** documentClient.put on the new-accounts table *)
Definition documentClient_put_accountConfig (env : Env)
    (key : string) (cfg : AccountConfig) : Handler Z :=
  do! issue (PutAccountConfig key cfg) in
  let! statusCode := settle (put_accountConfig env key cfg) in
  do! (if confirmed statusCode
       then write_newOrgAccounts (insert key cfg)
       else ret tt) in
  ret statusCode.

(** documentClient.delete on the new-accounts table *)
Definition documentClient_delete_accountConfig (env : Env)
    (key : string) : Handler Z :=
  do! issue (DeleteAccountConfig key) in
  let! statusCode := settle (delete_accountConfig env key) in
  do! (if confirmed statusCode
       then write_newOrgAccounts (delete key)
       else ret tt) in
  ret statusCode.

(** Modelled from the spec: the key schema of the GovCloud mapping table,
    which is declared outside this file; the mapping write is an upsert
    keyed by the primary (commercial) account id.  An item without its key
    attribute cannot be stored. *)
Definition upsert_mapping (item : GovCloudAccountMapping)
    (table : gmap string GovCloudAccountMapping)
  : gmap string GovCloudAccountMapping :=
  match commericalAccountId item with
  | Some key => <[key := item]> table
  | None => table
  end.

(** documentClient.put on the GovCloud mapping table *)
Definition documentClient_put_mapping (env : Env)
    (item : GovCloudAccountMapping) : Handler Z :=
  do! issue (PutGovCloudMapping item) in
  let! statusCode := settle (put_mapping env item) in
  do! (if confirmed statusCode
       then write_govCloudMapping (upsert_mapping item)
       else ret tt) in
  ret statusCode.

(** ** The functions of index.ts *)

(** The body of the scan test [response.Items?.length ?? 0 > 0]:
    [>] binds tighter than [??], so it reads [Items?.length ?? (0 > 0)];
    a length is truthy when it is not zero. *)
Definition scan_has_items (response : ScanOutput) : bool :=
  match length <$> Items response with
  | Some n => negb (bool_decide (n = 0%nat))
  | None => bool_decide (0 > 0)
  end.

(** [JSON.parse(text)]: the record, [null] (here [None]), or a
    SyntaxError. *)
Definition JSON_parse (text : AttributeText) : Handler (option AccountConfig) :=
  match text with
  | RecordText cfg => ret (Some cfg)
  | NullText => ret None
  | NotJson => throw JsSyntaxError
  end.

(** The list returned holds what [JSON.parse] returned: a record or
    [null]. *)
Definition getSingleAccountConfigFromTable (env : Env)
  : Handler (list (option AccountConfig)) :=
  let! response := documentClient_scan env in
  if scan_has_items response then
    match Items response with
    | Some (item :: _) =>
        let! account := JSON_parse (accountConfig item) in
        ret [account]
    | _ => throw (JsTypeError "Cannot read properties of undefined")
    end
  else ret [].

Definition deleteSingleAccountConfigFromTable (env : Env)
    (accountToDeleteEmail : string) : Handler bool :=
  let! statusCode := documentClient_delete_accountConfig env accountToDeleteEmail in
  if confirmed statusCode then ret true else ret false.

Definition createOrganizationAccount (env : Env)
    (accountEmail accountName : string) : Handler CreateAccountResponse :=
  let createAccountsParams :=
    {| req_AccountName := accountName;
       req_Email := accountEmail;
       req_RoleName := accountRoleName env |} in
  do! issue (CreateAccount createAccountsParams) in
  settle (createAccount env createAccountsParams).

Definition createGovCloudAccount (env : Env)
    (accountEmail accountName : string) : Handler CreateAccountResponse :=
  let createAccountsParams :=
    {| req_AccountName := accountName;
       req_Email := accountEmail;
       req_RoleName := accountRoleName env |} in
  do! issue (CreateGovCloudAccount createAccountsParams) in
  settle (createGovCloudAccount_api env createAccountsParams).

Definition getAccountCreationStatus (env : Env)
    (requestId : string) : Handler CreateAccountResponse :=
  do! issue (DescribeCreateAccountStatus requestId) in
  settle (describeCreateAccountStatus env requestId).

Definition updateAccountConfig (env : Env)
    (accountConfig : AccountConfig) : Handler bool :=
  let! statusCode :=
    documentClient_put_accountConfig env (email accountConfig) accountConfig in
  if confirmed statusCode then ret true else ret false.

(** [roots.Roots?.find(item => item.Name === 'Root')] *)
Definition find_rootOrg (roots : ListRootsResponse) : option Root.t :=
  Roots roots ≫= List.find (λ item, bool_decide (Root.Name item = Some "Root")).

(** [rootOrg!.Id!] is evaluated while the request parameters are built:
    reading [Id] of [undefined] throws a TypeError before moveAccount is
    called; an [Id] that is absent is passed on as it is. *)
Definition moveAccountToOrgIdFromRoot (env : Env)
    (accountId : option string) (orgId : string) : Handler bool :=
  do! issue ListRoots in
  let! roots := settle (listRoots env) in
  match find_rootOrg roots with
  | None =>
      throw (JsTypeError "Cannot read properties of undefined (reading 'Id')")
  | Some rootOrg =>
      let params :=
        {| move_AccountId := accountId;
           move_DestinationParentId := orgId;
           move_SourceParentId := Root.Id rootOrg |} in
      do! issue (MoveAccount params) in
      let! statusCode := settle (moveAccount env params) in
      if confirmed statusCode then ret true else ret false
  end.

Definition saveGovCloudAccountMapping (env : Env)
    (commericalAccountId : option string) (govCloudAccountId : string)
    (accountName : option string) : Handler bool :=
  let item :=
    {| commericalAccountId := commericalAccountId;
       govCloudAccountId := govCloudAccountId;
       accountName := accountName |} in
  let! statusCode := documentClient_put_mapping env item in
  if confirmed statusCode then ret true else ret false.

(** The [case 'SUCCEEDED'] block.  The source writes it out twice, once
    under the create response (lines 84-102) and once under the describe
    response (lines 118-132), with the same statements; the values the
    helpers return are dropped. *)
Definition case_SUCCEEDED (env : Env) (status : CreateAccountStatus.t)
    (singleAccountToAdd : AccountConfig) : Handler unit :=
  do! match CreateAccountStatus.GovCloudAccountId status with
      | Some govCloudAccountId =>
          if bool_decide (govCloudAccountId = "") then ret tt
          else
            do! saveGovCloudAccountMapping env
                  (CreateAccountStatus.AccountId status)
                  govCloudAccountId
                  (CreateAccountStatus.AccountName status) in
            ret tt
      | None => ret tt
      end in
  do! moveAccountToOrgIdFromRoot env
        (CreateAccountStatus.AccountId status)
        (organizationalUnitId singleAccountToAdd) in
  do! deleteSingleAccountConfigFromTable env (email singleAccountToAdd) in
  ret tt.

(** [response.CreateAccountStatus?.State] and the failure reason, as the
    error messages print them. *)
Definition state_of (response : CreateAccountResponse) : option string :=
  CreateAccountStatus response ≫= CreateAccountStatus.State.

Definition failureReason_of (response : CreateAccountResponse) : option string :=
  CreateAccountStatus response ≫= CreateAccountStatus.FailureReason.

Definition create_failed_message (cfg : AccountConfig)
    (response : CreateAccountResponse) : string :=
  "Could not create account " +:+ email cfg
  +:+ ". Response state: " +:+ template (state_of response)
  +:+ ". Failure reason: " +:+ template (failureReason_of response).

Definition status_failed_message (cfg : AccountConfig)
    (response : CreateAccountResponse) : string :=
  "Could not create account " +:+ email cfg
  +:+ ". Response state: " +:+ template (state_of response)
  +:+ ", Failure reason: " +:+ template (failureReason_of response).

(** The branch of [handler] taken when the request has no request id yet
    (lines 66-107). *)
Definition handler_create (env : Env) (singleAccountToAdd : AccountConfig)
  : Handler HandlerResult :=
  let! createAccountResponse :=
    (if strict_eq (enableGovCloud singleAccountToAdd) (JsString "true")
     then createGovCloudAccount env
            (email singleAccountToAdd) (name singleAccountToAdd)
     else createOrganizationAccount env
            (email singleAccountToAdd) (name singleAccountToAdd)) in
  match CreateAccountStatus createAccountResponse with
  | Some status =>
    if bool_decide (CreateAccountStatus.State status = Some "IN_PROGRESS") then
      let singleAccountToAdd :=
        set_createRequestId singleAccountToAdd (CreateAccountStatus.Id status) in
      let! updateAccountConfigResponse :=
        updateAccountConfig env singleAccountToAdd in
      if negb updateAccountConfigResponse then
        throw (JsError "Unable to update DynamoDB account record with request id")
      else ret {| IsComplete := false |}
    else if bool_decide (CreateAccountStatus.State status = Some "SUCCEEDED") then
      do! case_SUCCEEDED env status singleAccountToAdd in
      ret {| IsComplete := false |}
    else
      throw (JsError
        (create_failed_message singleAccountToAdd createAccountResponse))
  | None =>
      throw (JsError
        (create_failed_message singleAccountToAdd createAccountResponse))
  end.

(** The branch of [handler] taken when the request carries a request id
    (lines 109-137). *)
Definition handler_status (env : Env) (singleAccountToAdd : AccountConfig)
    (requestId : string) : Handler HandlerResult :=
  let! createAccountStatusResponse := getAccountCreationStatus env requestId in
  match CreateAccountStatus createAccountStatusResponse with
  | Some status =>
    if bool_decide (CreateAccountStatus.State status = Some "IN_PROGRESS") then
      ret {| IsComplete := false |}
    else if bool_decide (CreateAccountStatus.State status = Some "SUCCEEDED") then
      do! case_SUCCEEDED env status singleAccountToAdd in
      ret {| IsComplete := false |}
    else
      throw (JsError
        (status_failed_message singleAccountToAdd createAccountStatusResponse))
  | None =>
      throw (JsError
        (status_failed_message singleAccountToAdd createAccountStatusResponse))
  end.

(** [createRequestId === '' || createRequestId === undefined] *)
Definition needs_create (cfg : AccountConfig) : bool :=
  bool_decide (createRequestId cfg = Some "")
  || bool_decide (createRequestId cfg = None).

(** The [if] of line 65, on the request the scan selected. *)
Definition handler_selected (env : Env) (singleAccountToAdd : AccountConfig)
  : Handler HandlerResult :=
  match createRequestId singleAccountToAdd with
  | None => handler_create env singleAccountToAdd
  | Some requestId =>
      if bool_decide (requestId = "")
      then handler_create env singleAccountToAdd
      else handler_status env singleAccountToAdd requestId
  end.

(** Line 62 reads [singleAccountToAdd.enableGovCloud] for the log: on
    [null] this throws a TypeError before any further call. *)
Definition handler (env : Env) : Handler HandlerResult :=
  let! accountToAdd := getSingleAccountConfigFromTable env in
  match accountToAdd with
  | [] => ret {| IsComplete := true |}
  | None :: _ =>
      throw (JsTypeError
        "Cannot read properties of null (reading 'enableGovCloud')")
  | Some singleAccountToAdd :: _ => handler_selected env singleAccountToAdd
  end.

(** A scheduler run: one invocation per environment, each starting from
    the world the previous one left; the outcomes are collected in order. *)
Fixpoint invocations (envs : list Env) (w : World)
  : list (Exn + HandlerResult) * World :=
  match envs with
  | [] => ([], w)
  | env :: envs' =>
      let '(r, w') := handler env w in
      let '(rs, w'') := invocations envs' w' in
      (r :: rs, w'')
  end.

(** * Vocabulary of the statements *)

(** ** Outcomes and logs *)

Definition returned {A} (o : (Exn + A) * World) (a : A) : Prop := o.1 = inr a.

Definition threw {A} (o : (Exn + A) * World) : Prop := ∃ e, o.1 = inl e.

(** The calls issued between world [w] and a later world [w']. *)
Definition calls_since (w w' : World) : list SdkCall :=
  drop (length (sdkCalls w)) (sdkCalls w').

(** Create calls of either variant. *)
Definition is_create (c : SdkCall) : bool :=
  match c with
  | CreateAccount _ | CreateGovCloudAccount _ => true
  | _ => false
  end.

(** Create calls, of either variant, for a given email. *)
Definition is_create_for (key : string) (c : SdkCall) : bool :=
  match c with
  | CreateAccount params | CreateGovCloudAccount params =>
      bool_decide (req_Email params = key)
  | _ => false
  end.

(** Writes to either table. *)
Definition is_write (c : SdkCall) : bool :=
  match c with
  | PutAccountConfig _ _ | DeleteAccountConfig _ | PutGovCloudMapping _ => true
  | _ => false
  end.

(** ** The Create call made for a request, and its answer *)

Definition create_params (env : Env) (cfg : AccountConfig) : CreateAccountRequest :=
  {| req_AccountName := name cfg;
     req_Email := email cfg;
     req_RoleName := accountRoleName env |}.

Definition create_call (env : Env) (cfg : AccountConfig) : SdkCall :=
  if bool_decide (enableGovCloud cfg = JsString "true")
  then CreateGovCloudAccount (create_params env cfg)
  else CreateAccount (create_params env cfg).

Definition create_answer (env : Env) (cfg : AccountConfig)
  : AWSError + CreateAccountResponse :=
  if bool_decide (enableGovCloud cfg = JsString "true")
  then createGovCloudAccount_api env (create_params env cfg)
  else createAccount env (create_params env cfg).

(** The call that fetches a creation status for the selected request, and
    its answer: Create when the request has no request id, Describe-Status
    with the stored id otherwise. *)
Definition status_call (env : Env) (cfg : AccountConfig) : SdkCall :=
  match createRequestId cfg with
  | None => create_call env cfg
  | Some requestId =>
      if bool_decide (requestId = "") then create_call env cfg
      else DescribeCreateAccountStatus requestId
  end.

Definition status_answer (env : Env) (cfg : AccountConfig)
  : AWSError + CreateAccountResponse :=
  match createRequestId cfg with
  | None => create_answer env cfg
  | Some requestId =>
      if bool_decide (requestId = "") then create_answer env cfg
      else describeCreateAccountStatus env requestId
  end.

(** An invocation that selects [cfg] and is answered SUCCEEDED with
    [status], synchronously by Create or by Describe-Status. *)
Definition succeeded_with (env : Env) (w : World) (cfg : AccountConfig)
    (status : CreateAccountStatus.t) : Prop :=
  (∃ rest, returned (getSingleAccountConfigFromTable env w) (Some cfg :: rest))
  ∧ (∃ response,
       status_answer env cfg = inr response
       ∧ CreateAccountStatus response = Some status)
  ∧ CreateAccountStatus.State status = Some "SUCCEEDED".

(** ** Assumptions on the request table and its scan *)

(** The scan answers with rows of the table: a first item whose text is
    a record is the row stored under its accountEmail. *)
Definition scan_sound (env : Env) : Prop :=
  ∀ table out item rest cfg,
    scan env table = inr out →
    Items out = Some (item :: rest) →
    accountConfig item = RecordText cfg →
    table !! accountEmail item = Some cfg.

(** The scan succeeds, answers with a row of the table, and with no row
    only when the table is empty. *)
Definition scan_faithful (env : Env) : Prop :=
  ∀ table, ∃ out,
    scan env table = inr out
    ∧ match Items out with
      | Some (item :: _) =>
          ∃ cfg, accountConfig item = RecordText cfg
                 ∧ table !! accountEmail item = Some cfg
      | _ => table = ∅
      end.

(** Every row is stored under the email of its record, as
    [updateAccountConfig] writes it. *)
Definition keyed_by_email (table : gmap string AccountConfig) : Prop :=
  ∀ key cfg, table !! key = Some cfg → email cfg = key.

(** The row of [key], if any, carries a request id. *)
Definition not_pending (key : string) (table : gmap string AccountConfig) : Prop :=
  ∀ cfg, table !! key = Some cfg → needs_create cfg = false.

(** ** Optional values behind non-null assertions *)

Definition defined {A} (o : option A) : bool :=
  match o with
  | Some _ => true
  | None => false
  end.

(** A call whose parameters taken from behind a non-null assertion are
    all present. *)
Definition well_defined (c : SdkCall) : bool :=
  match c with
  | MoveAccount params =>
      defined (move_AccountId params) && defined (move_SourceParentId params)
  | PutGovCloudMapping item =>
      defined (commericalAccountId item) && defined (accountName item)
  | _ => true
  end.

(** The list-roots answer contains a root named 'Root'. *)
Definition has_default_root (roots : ListRootsResponse) : Prop :=
  ∃ l rootOrg,
    Roots roots = Some l ∧ rootOrg ∈ l ∧ Root.Name rootOrg = Some "Root".

(** The rows of the mapping table stored for a primary account id. *)
Definition rows_of (key : string)
    (table : gmap string GovCloudAccountMapping)
  : list (string * GovCloudAccountMapping) :=
  filter (λ row, row.1 = key) (map_to_list table).

(** ** Sample environments

    The scan returns the first row of the table and the organization has
    the default root.  Creating an account for any email is accepted as
    request "req-1"; the other answers are parameters. *)
Module Sample.

Definition scan_first (table : gmap string AccountConfig)
  : AWSError + ScanOutput :=
  inr {| Items :=
           Some (take 1 ((λ kv, mkScanItem kv.1 (RecordText kv.2))
                           <$> map_to_list table)) |}.

Definition in_progress_status : CreateAccountStatus.t :=
  {| CreateAccountStatus.Id := Some "req-1";
     CreateAccountStatus.AccountName := None;
     CreateAccountStatus.State := Some "IN_PROGRESS";
     CreateAccountStatus.AccountId := None;
     CreateAccountStatus.GovCloudAccountId := None;
     CreateAccountStatus.FailureReason := None |}.

Definition in_progress : CreateAccountResponse :=
  {| CreateAccountStatus := Some in_progress_status |}.

Definition default_root : Root.t :=
  {| Root.Id := Some "r-0"; Root.Name := Some "Root" |}.

Definition succeeded_status (gov : option string) : CreateAccountStatus.t :=
  {| CreateAccountStatus.Id := Some "req-1";
     CreateAccountStatus.AccountName := Some "a";
     CreateAccountStatus.State := Some "SUCCEEDED";
     CreateAccountStatus.AccountId := Some "111";
     CreateAccountStatus.GovCloudAccountId := gov;
     CreateAccountStatus.FailureReason := None |}.

Definition succeeded (gov : option string) : CreateAccountResponse :=
  {| CreateAccountStatus := Some (succeeded_status gov) |}.

Definition roots : ListRootsResponse :=
  {| Roots := Some [ default_root ] |}.

Definition no_roots : ListRootsResponse :=
  {| Roots := Some [ {| Root.Id := Some "r-1"; Root.Name := Some "Sandbox" |} ] |}.

Definition env_with (described : CreateAccountResponse)
    (listed : ListRootsResponse)
    (mapping_status move_status delete_status : Z) : Env :=
  {| accountRoleName := Some "AWSControlTowerExecution";
     scan := scan_first;
     put_accountConfig := λ _ _, inr 200;
     delete_accountConfig := λ _, inr delete_status;
     put_mapping := λ _, inr mapping_status;
     createAccount := λ _, inr in_progress;
     createGovCloudAccount_api := λ _, inr in_progress;
     describeCreateAccountStatus := λ _, inr described;
     listRoots := inr listed;
     moveAccount := λ _, inr move_status |}.

(** Everything succeeds, no GovCloud account. *)
Definition env : Env := env_with (succeeded None) roots 200 200 200.

(** The account is still being created. *)
Definition env_waiting : Env := env_with in_progress roots 200 200 200.

(** A GovCloud account comes with the commercial one. *)
Definition env_govcloud : Env :=
  env_with (succeeded (Some "gov-1")) roots 200 200 200.

(** No root is named 'Root'. *)
Definition env_no_root : Env := env_with (succeeded None) no_roots 200 200 200.

Definition request : AccountConfig :=
  {| name := "a";
     description := "";
     email := "a@x.com";
     enableGovCloud := JsString "false";
     organizationalUnit := "Workloads";
     organizationalUnitId := "ou-1";
     createRequestId := None |}.

(** The same request, read back with the boolean [true] in place of the
    string. *)
Definition request_bool : AccountConfig :=
  {| name := "a";
     description := "";
     email := "a@x.com";
     enableGovCloud := JsBool true;
     organizationalUnit := "Workloads";
     organizationalUnitId := "ou-1";
     createRequestId := None |}.

Definition submitted : AccountConfig :=
  set_createRequestId request (Some "req-1").

Definition world_of (cfg : AccountConfig) : World :=
  {| newOrgAccountsTable := {[ email cfg := cfg ]};
     govCloudAccountMappingTable := ∅;
     sdkCalls := [] |}.

Definition world : World := world_of request.

Definition world_submitted : World := world_of submitted.

Definition mapping : GovCloudAccountMapping :=
  {| commericalAccountId := Some "111";
     govCloudAccountId := "gov-1";
     accountName := Some "a" |}.

End Sample.

(** ** Further vocabulary *)

(** Calls that ask Organizations for a creation status: Create of either
    variant, or Describe-Status. *)
Definition is_status_request (c : SdkCall) : bool :=
  match c with
  | CreateAccount _ | CreateGovCloudAccount _
  | DescribeCreateAccountStatus _ => true
  | _ => false
  end.

(** An environment in which every step goes through: the scan is
    faithful, every creation status asked for is SUCCEEDED, the root is
    found, every call resolves and every delete is confirmed. *)
Definition always_succeeds (env : Env) : Prop :=
  scan_faithful env
  ∧ (∀ cfg, ∃ response status,
       status_answer env cfg = inr response
       ∧ CreateAccountStatus response = Some status
       ∧ CreateAccountStatus.State status = Some "SUCCEEDED")
  ∧ (∀ item, ∃ statusCode, put_mapping env item = inr statusCode)
  ∧ (∃ roots rootOrg,
       listRoots env = inr roots ∧ find_rootOrg roots = Some rootOrg)
  ∧ (∀ params, ∃ statusCode, moveAccount env params = inr statusCode)
  ∧ (∀ key, delete_accountConfig env key = inr 200).

(** The [case 'SUCCEEDED'] parameters of moveAccount for a status, a
    request and the root found. *)
Definition move_params_of (status : CreateAccountStatus.t)
    (cfg : AccountConfig) (rootOrg : Root.t) : MoveAccountRequest :=
  {| move_AccountId := CreateAccountStatus.AccountId status;
     move_DestinationParentId := organizationalUnitId cfg;
     move_SourceParentId := Root.Id rootOrg |}.

(** The item that [case 'SUCCEEDED'] puts into the mapping table. *)
Definition mapping_of (status : CreateAccountStatus.t) (gov : string)
  : GovCloudAccountMapping :=
  {| commericalAccountId := CreateAccountStatus.AccountId status;
     govCloudAccountId := gov;
     accountName := CreateAccountStatus.AccountName status |}.



(** What an invocation throws before it has selected a request: the
    rejection of the scan; the SyntaxError of [JSON.parse] on a first item
    whose accountConfig is absent or not JSON; the TypeError of line 62 on
    a first item whose accountConfig is the text [null]. *)
Definition scan_exception (env : Env) (w : World) (e : Exn) : Prop :=
  (∃ a, scan env (newOrgAccountsTable w) = inl a ∧ e = SdkRejected a)
  ∨ (∃ response item items,
       scan env (newOrgAccountsTable w) = inr response
       ∧ Items response = Some (item :: items)
       ∧ accountConfig item = NotJson
       ∧ e = JsSyntaxError)
  ∨ (∃ response item items,
       scan env (newOrgAccountsTable w) = inr response
       ∧ Items response = Some (item :: items)
       ∧ accountConfig item = NullText
       ∧ e = JsTypeError
               "Cannot read properties of null (reading 'enableGovCloud')").


(** ** More sample environments *)
Module More.

(** Parameters: the answer to Create (either variant), to
    Describe-Status and to MoveAccount; every write is confirmed and the
    root is listed. *)
Definition env_of (created described : AWSError + CreateAccountResponse)
    (moved : AWSError + Z) : Env :=
  {| accountRoleName := None;
     scan := Sample.scan_first;
     put_accountConfig := λ _ _, inr 200;
     delete_accountConfig := λ _, inr 200;
     put_mapping := λ _, inr 200;
     createAccount := λ _, created;
     createGovCloudAccount_api := λ _, created;
     describeCreateAccountStatus := λ _, described;
     listRoots := inr Sample.roots;
     moveAccount := λ _, moved |}.

(** Creation succeeds at once. *)
Definition env_at_once : Env :=
  env_of (inr (Sample.succeeded None)) (inr (Sample.succeeded None)) (inr 200).

Definition failed : CreateAccountResponse :=
  {| CreateAccountStatus := Some
       {| CreateAccountStatus.Id := Some "req-1";
          CreateAccountStatus.AccountName := Some "a";
          CreateAccountStatus.State := Some "FAILED";
          CreateAccountStatus.AccountId := None;
          CreateAccountStatus.GovCloudAccountId := None;
          CreateAccountStatus.FailureReason := Some "EMAIL_ALREADY_EXISTS" |} |}.

(** Describe-Status reports FAILED. *)
Definition env_failed : Env :=
  env_of (inr Sample.in_progress) (inr failed) (inr 200).

Definition pending_without_id : CreateAccountStatus.t :=
  {| CreateAccountStatus.Id := None;
     CreateAccountStatus.AccountName := None;
     CreateAccountStatus.State := Some "IN_PROGRESS";
     CreateAccountStatus.AccountId := None;
     CreateAccountStatus.GovCloudAccountId := None;
     CreateAccountStatus.FailureReason := None |}.

(** Create answers IN_PROGRESS without a request id. *)
Definition env_no_id : Env :=
  env_of (inr {| CreateAccountStatus := Some pending_without_id |})
    (inr Sample.in_progress) (inr 200).




Definition second : AccountConfig :=
  {| name := "b";
     description := "";
     email := "b@x.com";
     enableGovCloud := JsString "true";
     organizationalUnit := "Workloads";
     organizationalUnitId := "ou-2";
     createRequestId := Some "req-2" |}.

(** Two requests, one not yet submitted and one submitted. *)
Definition world : World :=
  {| newOrgAccountsTable :=
       <[ "b@x.com" := second ]> {[ "a@x.com" := Sample.request ]};
     govCloudAccountMappingTable := ∅;
     sdkCalls := [] |}.

Definition empty_world : World :=
  {| newOrgAccountsTable := ∅;
     govCloudAccountMappingTable := ∅;
     sdkCalls := [] |}.

End More.

(** * Lemmas *)

(** ** Proof tools *)

(** Unfolds the monad and the SDK wrappers, leaving the environment's
    answers as the only scrutinees. *)
Ltac unfold_monad :=
  unfold documentClient_scan, documentClient_put_accountConfig,
    documentClient_delete_accountConfig, documentClient_put_mapping,
    read_newOrgAccounts, write_newOrgAccounts, write_govCloudMapping,
    settle, issue, bind, ret, throw in *.

Ltac unfold_helpers :=
  unfold case_SUCCEEDED, moveAccountToOrgIdFromRoot,
    saveGovCloudAccountMapping, deleteSingleAccountConfigFromTable,
    updateAccountConfig, getAccountCreationStatus,
    createOrganizationAccount, createGovCloudAccount,
    getSingleAccountConfigFromTable, JSON_parse in *.

(** Case analysis on every answer met along the way. *)
Ltac branches := repeat (case_match; simplify_eq /=; try done).

(** Membership in, and [Forall] over, an explicit list of calls. *)
Ltac explicit_calls :=
  repeat match goal with
  | H : _ ∈ _ :: _ |- _ => apply elem_of_cons in H as [H|H]
  | H : _ ∈ [] |- _ => by apply elem_of_nil in H
  | H : Forall _ (_ :: _) |- _ => apply Forall_cons in H as [? H]
  | H : _ && _ = true |- _ => apply andb_true_iff in H as [? ?]
  end.

(** ** Logs *)

Lemma calls_since_app w w' l :
  sdkCalls w' = sdkCalls w ++ l → calls_since w w' = l.
Proof. unfold calls_since. intros ->. by rewrite drop_app_length. Qed.

Lemma calls_since_logged2 w c1 c2 w' :
  sdkCalls w' = sdkCalls (logged c2 (logged c1 w)) →
  calls_since w w' = [c1; c2].
Proof.
  intros H. apply calls_since_app. rewrite H. simpl. by rewrite <- app_assoc.
Qed.

Lemma calls_since_logged3 w c1 c2 c3 w' :
  sdkCalls w' = sdkCalls (logged c3 (logged c2 (logged c1 w))) →
  calls_since w w' = [c1; c2; c3].
Proof.
  intros H. apply calls_since_app. rewrite H. simpl. by rewrite <- !app_assoc.
Qed.

(** Computes the calls of an invocation from its final log. *)
Ltac calls_since_log :=
  erewrite calls_since_app
    by (simpl; rewrite <- ?app_assoc; simpl; reflexivity).

(** ** The guard on the request id *)

Lemma needs_create_true cfg :
  needs_create cfg = true ↔
  createRequestId cfg = None ∨ createRequestId cfg = Some "".
Proof.
  unfold needs_create. rewrite orb_true_iff, !bool_decide_eq_true. tauto.
Qed.

Lemma needs_create_false cfg :
  needs_create cfg = false ↔
  ∃ requestId, createRequestId cfg = Some requestId ∧ requestId ≠ "".
Proof.
  unfold needs_create. rewrite orb_false_iff, !bool_decide_eq_false.
  destruct (createRequestId cfg) as [requestId|]; split.
  - intros [H _]. exists requestId. split; [done | congruence].
  - intros (? & [= <-] & ?). split; congruence.
  - intros [_ H]. done.
  - intros (? & ? & _). done.
Qed.

Lemma handler_selected_create env cfg :
  needs_create cfg = true →
  handler_selected env cfg = handler_create env cfg.
Proof.
  intros [Hid|Hid]%needs_create_true; unfold handler_selected;
    by rewrite Hid.
Qed.

Lemma handler_selected_status env cfg requestId :
  createRequestId cfg = Some requestId → requestId ≠ "" →
  handler_selected env cfg = handler_status env cfg requestId.
Proof.
  intros Hid Hne. unfold handler_selected. rewrite Hid.
  by rewrite bool_decide_eq_false_2.
Qed.

(** ** What a scan leaves behind *)

Lemma getSingleAccountConfigFromTable_run env w :
  getSingleAccountConfigFromTable env w =
  (match scan env (newOrgAccountsTable w) with
   | inl e => inl (SdkRejected e)
   | inr response =>
       match Items response with
       | Some (item :: _) =>
           match accountConfig item with
           | RecordText cfg => inr [Some cfg]
           | NullText => inr [None]
           | NotJson => inl JsSyntaxError
           end
       | _ => inr []
       end
   end, logged Scan w).
Proof.
  unfold getSingleAccountConfigFromTable, scan_has_items, JSON_parse.
  unfold_monad. simpl.
  destruct (scan env (newOrgAccountsTable w)) as [e|response]; [done|].
  simpl. destruct (Items response) as [[|item items]|]; try done.
  simpl. by destruct (accountConfig item).
Qed.

Lemma getSingleAccountConfigFromTable_world env w :
  (getSingleAccountConfigFromTable env w).2 = logged Scan w.
Proof. by rewrite getSingleAccountConfigFromTable_run. Qed.

Lemma handler_unfold env w :
  handler env w =
  match (getSingleAccountConfigFromTable env w).1 with
  | inl e => (inl e, logged Scan w)
  | inr [] => (inr {| IsComplete := true |}, logged Scan w)
  | inr (None :: _) =>
      (inl (JsTypeError
              "Cannot read properties of null (reading 'enableGovCloud')"),
       logged Scan w)
  | inr (Some cfg :: _) => handler_selected env cfg (logged Scan w)
  end.
Proof.
  unfold handler, bind.
  pose proof (getSingleAccountConfigFromTable_world env w) as Hw.
  destruct (getSingleAccountConfigFromTable env w)
    as [[e|[|[cfg|] rest]] w'];
    simpl in *; by subst.
Qed.

Lemma handler_selected_world env w cfg rest :
  returned (getSingleAccountConfigFromTable env w) (Some cfg :: rest) →
  handler env w = handler_selected env cfg (logged Scan w).
Proof. unfold returned. intros Hsel. by rewrite handler_unfold, Hsel. Qed.

Lemma getSingleAccountConfigFromTable_sound env w cfg rest :
  scan_sound env →
  keyed_by_email (newOrgAccountsTable w) →
  returned (getSingleAccountConfigFromTable env w) (Some cfg :: rest) →
  newOrgAccountsTable w !! email cfg = Some cfg.
Proof.
  intros Hsound Hkeyed. unfold returned.
  rewrite getSingleAccountConfigFromTable_run. simpl.
  destruct (scan env (newOrgAccountsTable w)) as [e|out] eqn:Hscan; [done|].
  destruct (Items out) as [[|item items]|] eqn:Hitems; try done.
  destruct (accountConfig item) as [cfg'| |] eqn:Htext; try done.
  intros [= <- <-].
  pose proof (Hsound _ _ _ _ _ Hscan Hitems Htext) as Hrow.
  by rewrite (Hkeyed _ _ Hrow).
Qed.

Lemma getSingleAccountConfigFromTable_singleton env w key cfg :
  scan_faithful env →
  newOrgAccountsTable w = {[ key := cfg ]} →
  returned (getSingleAccountConfigFromTable env w) [Some cfg].
Proof.
  intros Hscan Htable.
  destruct (Hscan (newOrgAccountsTable w)) as (out & Hout & Hitems).
  unfold returned. rewrite getSingleAccountConfigFromTable_run, Hout. simpl.
  rewrite Htable in Hitems.
  destruct (Items out) as [[|item items]|].
  - by apply map_non_empty_singleton in Hitems.
  - destruct Hitems as (cfg' & -> & Hrow).
    apply lookup_singleton_Some in Hrow as [_ <-]. done.
  - by apply map_non_empty_singleton in Hitems.
Qed.

Lemma getSingleAccountConfigFromTable_empty env w :
  scan_faithful env →
  newOrgAccountsTable w = ∅ →
  returned (getSingleAccountConfigFromTable env w) [].
Proof.
  intros Hscan Htable.
  destruct (Hscan (newOrgAccountsTable w)) as (out & Hout & Hitems).
  unfold returned. rewrite getSingleAccountConfigFromTable_run, Hout. simpl.
  rewrite Htable in Hitems.
  destruct (Items out) as [[|item items]|]; try done.
  by destruct Hitems as (cfg & _ & Hrow).
Qed.

(** ** The helpers, run against the environment *)

Lemma updateAccountConfig_run env cfg w :
  updateAccountConfig env cfg w =
  let w1 := logged (PutAccountConfig (email cfg) cfg) w in
  match put_accountConfig env (email cfg) cfg with
  | inl e => (inl (SdkRejected e), w1)
  | inr statusCode =>
      if confirmed statusCode
      then (inr true, with_newOrgAccounts (insert (email cfg) cfg) w1)
      else (inr false, w1)
  end.
Proof.
  unfold updateAccountConfig. unfold_monad. simpl.
  destruct (put_accountConfig env (email cfg) cfg) as [e|statusCode]; [done|].
  simpl. destruct (confirmed statusCode) eqn:Hcode; simpl; by rewrite Hcode.
Qed.

Lemma deleteSingleAccountConfigFromTable_run env key w :
  deleteSingleAccountConfigFromTable env key w =
  let w1 := logged (DeleteAccountConfig key) w in
  match delete_accountConfig env key with
  | inl e => (inl (SdkRejected e), w1)
  | inr statusCode =>
      if confirmed statusCode
      then (inr true, with_newOrgAccounts (delete key) w1)
      else (inr false, w1)
  end.
Proof.
  unfold deleteSingleAccountConfigFromTable. unfold_monad. simpl.
  destruct (delete_accountConfig env key) as [e|statusCode]; [done|].
  simpl. destruct (confirmed statusCode) eqn:Hcode; simpl; by rewrite Hcode.
Qed.

Lemma saveGovCloudAccountMapping_run env primary gov accName w :
  saveGovCloudAccountMapping env primary gov accName w =
  let item := {| commericalAccountId := primary;
                 govCloudAccountId := gov;
                 accountName := accName |} in
  let w1 := logged (PutGovCloudMapping item) w in
  match put_mapping env item with
  | inl e => (inl (SdkRejected e), w1)
  | inr statusCode =>
      if confirmed statusCode
      then (inr true, with_govCloudMapping (upsert_mapping item) w1)
      else (inr false, w1)
  end.
Proof.
  unfold saveGovCloudAccountMapping. unfold_monad. simpl.
  destruct (put_mapping env _) as [e|statusCode]; [done|].
  simpl. destruct (confirmed statusCode) eqn:Hcode; simpl; by rewrite Hcode.
Qed.

Lemma moveAccountToOrgIdFromRoot_run env accountId orgId w :
  moveAccountToOrgIdFromRoot env accountId orgId w =
  let w1 := logged ListRoots w in
  match listRoots env with
  | inl e => (inl (SdkRejected e), w1)
  | inr roots =>
      match find_rootOrg roots with
      | None =>
          (inl (JsTypeError
                  "Cannot read properties of undefined (reading 'Id')"), w1)
      | Some rootOrg =>
          let params := {| move_AccountId := accountId;
                           move_DestinationParentId := orgId;
                           move_SourceParentId := Root.Id rootOrg |} in
          let w2 := logged (MoveAccount params) w1 in
          match moveAccount env params with
          | inl e => (inl (SdkRejected e), w2)
          | inr statusCode => (inr (confirmed statusCode), w2)
          end
      end
  end.
Proof.
  unfold moveAccountToOrgIdFromRoot. unfold_monad. simpl.
  destruct (listRoots env) as [e|roots]; [done|]. simpl.
  destruct (find_rootOrg roots) as [rootOrg|]; [|done]. simpl.
  destruct (moveAccount env _) as [e|statusCode]; [done|]. simpl.
  by destruct (confirmed statusCode).
Qed.

Lemma createOrganizationAccount_run env cfg w :
  createOrganizationAccount env (email cfg) (name cfg) w =
  let w1 := logged (CreateAccount (create_params env cfg)) w in
  match createAccount env (create_params env cfg) with
  | inl e => (inl (SdkRejected e), w1)
  | inr response => (inr response, w1)
  end.
Proof.
  unfold createOrganizationAccount, create_params. unfold_monad. simpl.
  by destruct (createAccount env _).
Qed.

Lemma createGovCloudAccount_run env cfg w :
  createGovCloudAccount env (email cfg) (name cfg) w =
  let w1 := logged (CreateGovCloudAccount (create_params env cfg)) w in
  match createGovCloudAccount_api env (create_params env cfg) with
  | inl e => (inl (SdkRejected e), w1)
  | inr response => (inr response, w1)
  end.
Proof.
  unfold createGovCloudAccount, create_params. unfold_monad. simpl.
  by destruct (createGovCloudAccount_api env _).
Qed.

Lemma getAccountCreationStatus_run env requestId w :
  getAccountCreationStatus env requestId w =
  let w1 := logged (DescribeCreateAccountStatus requestId) w in
  match describeCreateAccountStatus env requestId with
  | inl e => (inl (SdkRejected e), w1)
  | inr response => (inr response, w1)
  end.
Proof.
  unfold getAccountCreationStatus. unfold_monad. simpl.
  by destruct (describeCreateAccountStatus env _).
Qed.

(** ** The two branches, up to the answer on the creation status *)

(** What either branch does with a creation status, given what it does
    on IN_PROGRESS. *)
Lemma handler_create_answer env cfg w :
  handler_create env cfg w =
  let w1 := logged (create_call env cfg) w in
  match create_answer env cfg with
  | inl e => (inl (SdkRejected e), w1)
  | inr response =>
    match CreateAccountStatus response with
    | Some status =>
      if bool_decide (CreateAccountStatus.State status = Some "IN_PROGRESS") then
        let cfg' := set_createRequestId cfg (CreateAccountStatus.Id status) in
        bind (updateAccountConfig env cfg')
          (λ r, if negb r
                then throw (JsError
                  "Unable to update DynamoDB account record with request id")
                else ret {| IsComplete := false |}) w1
      else if bool_decide (CreateAccountStatus.State status = Some "SUCCEEDED") then
        bind (case_SUCCEEDED env status cfg)
          (λ _, ret {| IsComplete := false |}) w1
      else (inl (JsError (create_failed_message cfg response)), w1)
    | None => (inl (JsError (create_failed_message cfg response)), w1)
    end
  end.
Proof.
  unfold create_answer, create_call, handler_create, strict_eq.
  unfold bind at 1.
  case_bool_decide as Hgov.
  - rewrite createGovCloudAccount_run. simpl.
    destruct (createGovCloudAccount_api env _) as [e|response]; [done|].
    destruct (CreateAccountStatus response); [|done].
    repeat case_bool_decide; done.
  - rewrite createOrganizationAccount_run. simpl.
    destruct (createAccount env _) as [e|response]; [done|].
    destruct (CreateAccountStatus response); [|done].
    repeat case_bool_decide; done.
Qed.

Lemma handler_status_answer env cfg requestId w :
  handler_status env cfg requestId w =
  let w1 := logged (DescribeCreateAccountStatus requestId) w in
  match describeCreateAccountStatus env requestId with
  | inl e => (inl (SdkRejected e), w1)
  | inr response =>
    match CreateAccountStatus response with
    | Some status =>
      if bool_decide (CreateAccountStatus.State status = Some "IN_PROGRESS") then
        (inr {| IsComplete := false |}, w1)
      else if bool_decide (CreateAccountStatus.State status = Some "SUCCEEDED") then
        bind (case_SUCCEEDED env status cfg)
          (λ _, ret {| IsComplete := false |}) w1
      else (inl (JsError (status_failed_message cfg response)), w1)
    | None => (inl (JsError (status_failed_message cfg response)), w1)
    end
  end.
Proof.
  unfold handler_status. unfold bind at 1.
  rewrite getAccountCreationStatus_run. simpl.
  destruct (describeCreateAccountStatus env _) as [e|response]; [done|].
  destruct (CreateAccountStatus response); [|done].
  repeat case_bool_decide; done.
Qed.

Lemma handler_succeeded env w cfg status :
  succeeded_with env w cfg status →
  handler env w =
  bind (case_SUCCEEDED env status cfg) (λ _, ret {| IsComplete := false |})
    (logged (status_call env cfg) (logged Scan w)).
Proof.
  intros ([rest Hsel] & (response & Hanswer & Hstatus) & Hstate).
  rewrite (handler_selected_world _ _ _ _ Hsel).
  unfold handler_selected, status_call, status_answer in *.
  destruct (createRequestId cfg) as [requestId|]; [case_bool_decide|].
  - by rewrite handler_create_answer, Hanswer, Hstatus, Hstate.
  - by rewrite handler_status_answer, Hanswer, Hstatus, Hstate.
  - by rewrite handler_create_answer, Hanswer, Hstatus, Hstate.
Qed.

(** ** Summaries of the SUCCEEDED block and of the two branches *)

(** The SUCCEEDED block issues no Create call, and leaves the request
    table as it was or without the row of the request. *)
Lemma case_SUCCEEDED_summary env status cfg w :
  let out := case_SUCCEEDED env status cfg w in
  let t := newOrgAccountsTable w in
  (∃ calls, sdkCalls out.2 = sdkCalls w ++ calls
            ∧ Forall (λ c, is_create c = false) calls)
  ∧ (newOrgAccountsTable out.2 = t
     ∨ newOrgAccountsTable out.2 = delete (email cfg) t).
Proof.
  unfold case_SUCCEEDED. unfold_helpers; unfold_monad.
  branches; rewrite <- ?app_assoc; simpl;
    (split; [eexists; split; [reflexivity | repeat constructor] | eauto]).
Qed.

(** The create branch returns IsComplete = false or throws; it issues one
    Create call, first, of the variant that the strict comparison with
    ['true'] selects; the request table is unchanged, or holds the request
    with a new request id, or has lost the row of the request. *)
Lemma handler_create_summary env cfg w :
  let out := handler_create env cfg w in
  let t := newOrgAccountsTable w in
  (returned out {| IsComplete := false |} ∨ threw out)
  ∧ (∃ more, sdkCalls out.2 = sdkCalls w ++ create_call env cfg :: more
             ∧ Forall (λ c, is_create c = false) more)
  ∧ (newOrgAccountsTable out.2 = t
     ∨ (∃ id, newOrgAccountsTable out.2 =
                <[email cfg := set_createRequestId cfg id]> t)
     ∨ newOrgAccountsTable out.2 = delete (email cfg) t).
Proof.
  unfold returned, threw. rewrite handler_create_answer. simpl.
  set (w1 := logged (create_call env cfg) w).
  assert (Hstop : ∀ r : Exn + HandlerResult,
    (r = inr {| IsComplete := false |} ∨ ∃ e', r = inl e') →
    (r = inr {| IsComplete := false |} ∨ ∃ e', r = inl e')
    ∧ (∃ more, sdkCalls w1 = sdkCalls w ++ create_call env cfg :: more
               ∧ Forall (λ c, is_create c = false) more)
    ∧ (newOrgAccountsTable w1 = newOrgAccountsTable w
       ∨ (∃ id, newOrgAccountsTable w1 =
                  <[email cfg := set_createRequestId cfg id]>
                    (newOrgAccountsTable w))
       ∨ newOrgAccountsTable w1 = delete (email cfg) (newOrgAccountsTable w))).
  { intros r Hr. split_and!; [done | | by left].
    exists []. split; [done | constructor]. }
  destruct (create_answer env cfg) as [e|response]; [apply Hstop; by eauto|].
  destruct (CreateAccountStatus response) as [status|];
    [|apply Hstop; by eauto].
  case_bool_decide as Hpending;
    [|case_bool_decide as Hdone; [|apply Hstop; by eauto]].
  - unfold bind. rewrite updateAccountConfig_run. simpl.
    destruct (put_accountConfig env _ _) as [e|statusCode]; simpl;
      [|destruct (confirmed statusCode); simpl];
      (split_and!;
       [ by eauto
       | eexists [_]; split; [simpl; by rewrite <- app_assoc | repeat constructor]
       | by eauto ]).
  - unfold bind.
    destruct (case_SUCCEEDED_summary env status cfg w1)
      as [(calls & Hlog & Hcalls) Htable].
    destruct (case_SUCCEEDED env status cfg w1) as [[e|[]] w2];
      simpl in *;
      (split_and!;
       [ by eauto
       | exists calls; split; [rewrite Hlog; simpl; by rewrite <- app_assoc | done]
       | destruct Htable as [->| ->]; by eauto ]).
Qed.

(** The status branch returns IsComplete = false or throws; it issues no
    Create call; the request table is unchanged or has lost the row of the
    request. *)
Lemma handler_status_summary env cfg requestId w :
  let out := handler_status env cfg requestId w in
  let t := newOrgAccountsTable w in
  (returned out {| IsComplete := false |} ∨ threw out)
  ∧ (∃ calls, sdkCalls out.2 = sdkCalls w ++ calls
              ∧ Forall (λ c, is_create c = false) calls)
  ∧ (newOrgAccountsTable out.2 = t
     ∨ newOrgAccountsTable out.2 = delete (email cfg) t).
Proof.
  unfold returned, threw. rewrite handler_status_answer. simpl.
  set (describe := DescribeCreateAccountStatus requestId).
  set (w1 := logged describe w).
  assert (Hstop : ∀ r : Exn + HandlerResult,
    (r = inr {| IsComplete := false |} ∨ ∃ e', r = inl e') →
    (r = inr {| IsComplete := false |} ∨ ∃ e', r = inl e')
    ∧ (∃ calls, sdkCalls w1 = sdkCalls w ++ calls
                ∧ Forall (λ c, is_create c = false) calls)
    ∧ (newOrgAccountsTable w1 = newOrgAccountsTable w
       ∨ newOrgAccountsTable w1 = delete (email cfg) (newOrgAccountsTable w))).
  { intros r Hr. split_and!; [done | | by left].
    exists [describe]. split; [done | repeat constructor]. }
  destruct (describeCreateAccountStatus env requestId) as [e|response];
    [apply Hstop; by eauto|].
  destruct (CreateAccountStatus response) as [status|];
    [|apply Hstop; by eauto].
  case_bool_decide as Hpending; [apply Hstop; by eauto|].
  case_bool_decide as Hdone; [|apply Hstop; by eauto].
  unfold bind.
  destruct (case_SUCCEEDED_summary env status cfg w1)
    as [(calls & Hlog & Hcalls) Htable].
  destruct (case_SUCCEEDED env status cfg w1) as [[e|[]] w2];
    simpl in *;
    (split_and!;
     [ by eauto
     | exists (describe :: calls); split;
       [rewrite Hlog; simpl; by rewrite <- app_assoc | by constructor]
     | done ]).
Qed.

Lemma handler_selected_false_or_throws env cfg w :
  returned (handler_selected env cfg w) {| IsComplete := false |}
  ∨ threw (handler_selected env cfg w).
Proof.
  unfold handler_selected.
  destruct (createRequestId cfg) as [requestId|]; [case_bool_decide|].
  - apply handler_create_summary.
  - apply handler_status_summary.
  - apply handler_create_summary.
Qed.

(** * Theorems *)

(** ** Completion *)

(** C5. The handler returns IsComplete = true exactly when the scan of the
    request table selected no request; when a request was selected the
    invocation returns IsComplete = false or throws. *)
Theorem handler_complete_iff_none_selected env w :
  (returned (handler env w) {| IsComplete := true |}
   ↔ returned (getSingleAccountConfigFromTable env w) [])
  ∧ (∀ account rest,
       returned (getSingleAccountConfigFromTable env w) (account :: rest) →
       returned (handler env w) {| IsComplete := false |}
       ∨ threw (handler env w)).
Proof.
  rewrite handler_unfold. unfold returned at 2 3.
  destruct (getSingleAccountConfigFromTable env w).1
    as [e|[|[cfg|] rest]].
  - split; [split; intros H; inversion H | intros ? ? H; inversion H].
  - split; [done | intros ? ? H; inversion H].
  - split.
    + split; [|intros H; inversion H].
      intros Htrue. exfalso.
      destruct (handler_selected_false_or_throws env cfg (logged Scan w))
        as [H|[e H]]; unfold returned in *; congruence.
    + intros ? ? _. apply handler_selected_false_or_throws.
  - split.
    + split; intros H; inversion H.
    + intros ? ? _. right. unfold threw. simpl. eauto.
Qed.

(** ** Variant selection *)

(** C9. Once a request without request id is selected, the GovCloud
    variant of Create is called if and only if the stored enableGovCloud
    value is exactly the string 'true'; for every other value, the
    boolean true, 'True', 'TRUE' and an absent field among them, the
    standard variant is called. *)
Theorem govcloud_variant_iff_exact_string env w cfg rest :
  returned (getSingleAccountConfigFromTable env w) (Some cfg :: rest) →
  needs_create cfg = true →
  let calls := calls_since w (handler env w).2 in
  (CreateGovCloudAccount (create_params env cfg) ∈ calls
     ↔ enableGovCloud cfg = JsString "true")
  ∧ (CreateAccount (create_params env cfg) ∈ calls
     ↔ enableGovCloud cfg ≠ JsString "true")
  ∧ (enableGovCloud cfg ∈
       [JsBool true; JsString "True"; JsString "TRUE"; JsUndefined] →
     CreateAccount (create_params env cfg) ∈ calls
     ∧ ∀ params, CreateGovCloudAccount params ∉ calls).
Proof.
  intros Hsel Hneeds calls. subst calls.
  rewrite (handler_selected_world _ _ _ _ Hsel).
  rewrite (handler_selected_create _ _ Hneeds).
  destruct (handler_create_summary env cfg (logged Scan w))
    as (_ & (more & Hlog & Hmore) & _).
  simpl in Hlog. rewrite <- app_assoc in Hlog.
  rewrite (calls_since_app _ _ _ Hlog). clear Hlog.
  rewrite Forall_forall in Hmore.
  assert (Hnot : ∀ c, c ∈ more → is_create c = true → False).
  { intros c Hc Hcreate. specialize (Hmore c Hc). congruence. }
  unfold create_call. case_bool_decide as Hgov.
  - split_and!.
    + split; [done | intros _; set_solver].
    + split; [|done]. intros Hin. exfalso.
      apply elem_of_cons in Hin as [?|Hin]; [done|].
      apply elem_of_cons in Hin as [?|Hin]; [done|].
      by eapply Hnot.
    + rewrite Hgov. intros Hin. exfalso.
      repeat (apply elem_of_cons in Hin as [?|Hin]; [done|]).
      by apply elem_of_nil in Hin.
  - assert (Hno : ∀ params, CreateGovCloudAccount params ∉
                    Scan :: CreateAccount (create_params env cfg) :: more).
    { intros params Hin.
      apply elem_of_cons in Hin as [?|Hin]; [done|].
      apply elem_of_cons in Hin as [?|Hin]; [done|].
      by eapply Hnot. }
    split_and!.
    + split; [|done]. intros Hin. exfalso. by eapply Hno.
    + split; [done | intros _; set_solver].
    + intros _. split; [set_solver | done].
Qed.

(** ** The waiting branch *)

(** C7. When the selected request already carries a request id and
    Describe-Status reports IN_PROGRESS, the invocation returns
    IsComplete = false, issues no write, and leaves the request table and
    the mapping table as they were. *)
Theorem waiting_leaves_stores_unchanged
    env w cfg rest requestId response status :
  returned (getSingleAccountConfigFromTable env w) (Some cfg :: rest) →
  createRequestId cfg = Some requestId →
  requestId ≠ "" →
  describeCreateAccountStatus env requestId = inr response →
  CreateAccountStatus response = Some status →
  CreateAccountStatus.State status = Some "IN_PROGRESS" →
  let w' := (handler env w).2 in
  returned (handler env w) {| IsComplete := false |}
  ∧ newOrgAccountsTable w' = newOrgAccountsTable w
  ∧ govCloudAccountMappingTable w' = govCloudAccountMappingTable w
  ∧ calls_since w w' = [Scan; DescribeCreateAccountStatus requestId]
  ∧ Forall (λ c, is_write c = false) (calls_since w w').
Proof.
  intros Hsel Hid Hne Hdescribe Hstatus Hstate w'. subst w'.
  rewrite (handler_selected_world _ _ _ _ Hsel).
  rewrite (handler_selected_status _ _ _ Hid Hne).
  rewrite handler_status_answer, Hdescribe, Hstatus, Hstate. simpl.
  rewrite (calls_since_logged2 w Scan (DescribeCreateAccountStatus requestId))
    by done.
  split_and!; try done. repeat constructor.
Qed.

(** ** Accepted but pending *)

(** C4. When Create answers IN_PROGRESS, the handler puts, under the
    request's email, the record whose createRequestId is the Id that
    Create returned and whose other fields are those of the request.  If
    DynamoDB confirms the put, that record is the stored row and the
    invocation returns IsComplete = false; if it does not (another status
    code, or a rejection), the invocation throws and the table is
    unchanged. *)
Theorem pending_create_persists_request_id
    env w cfg rest response status :
  returned (getSingleAccountConfigFromTable env w) (Some cfg :: rest) →
  needs_create cfg = true →
  create_answer env cfg = inr response →
  CreateAccountStatus response = Some status →
  CreateAccountStatus.State status = Some "IN_PROGRESS" →
  let stored :=
    {| name := name cfg;
       description := description cfg;
       email := email cfg;
       enableGovCloud := enableGovCloud cfg;
       organizationalUnit := organizationalUnit cfg;
       organizationalUnitId := organizationalUnitId cfg;
       createRequestId := CreateAccountStatus.Id status |} in
  let w' := (handler env w).2 in
  calls_since w w' =
    [Scan; create_call env cfg; PutAccountConfig (email cfg) stored]
  ∧ (put_accountConfig env (email cfg) stored = inr 200 →
     returned (handler env w) {| IsComplete := false |}
     ∧ newOrgAccountsTable w' !! email cfg = Some stored
     ∧ newOrgAccountsTable w' = <[email cfg := stored]> (newOrgAccountsTable w))
  ∧ (put_accountConfig env (email cfg) stored ≠ inr 200 →
     threw (handler env w)
     ∧ ¬ (∃ result, returned (handler env w) result)
     ∧ newOrgAccountsTable w' = newOrgAccountsTable w).
Proof.
  intros Hsel Hneeds Hanswer Hstatus Hstate stored w'. subst w'.
  rewrite (handler_selected_world _ _ _ _ Hsel). clear Hsel.
  rewrite (handler_selected_create _ _ Hneeds).
  rewrite handler_create_answer, Hanswer, Hstatus, Hstate.
  simpl. unfold bind, returned, threw.
  rewrite updateAccountConfig_run.
  change (set_createRequestId cfg (CreateAccountStatus.Id status))
    with stored.
  replace (email stored) with (email cfg) by done.
  destruct (put_accountConfig env (email cfg) stored) as [e|statusCode]; simpl.
  - split_and!.
    + by apply calls_since_logged3.
    + done.
    + intros _. split_and!; [eauto | by intros [? ?] | done].
  - destruct (confirmed statusCode) eqn:Hcode; simpl.
    + split_and!.
      * by apply calls_since_logged3.
      * intros _. split_and!; [done | by rewrite lookup_insert_eq | done].
      * intros Hbad. exfalso. apply Hbad. f_equal.
        by apply bool_decide_eq_true in Hcode.
    + split_and!.
      * by apply calls_since_logged3.
      * intros [= ->]. done.
      * intros _. split_and!; [eauto | by intros [? ?] | done].
Qed.

(** ** At-most-once submission *)

(** The calls of one invocation: the log only grows, and a Create call in
    it is the one of the create branch, made for the selected request,
    which has no request id. *)
Lemma handler_log env w :
  ∃ calls,
    sdkCalls (handler env w).2 = sdkCalls w ++ calls
    ∧ ∀ c, c ∈ calls → is_create c = true →
        ∃ cfg rest,
          returned (getSingleAccountConfigFromTable env w) (Some cfg :: rest)
          ∧ needs_create cfg = true
          ∧ c = create_call env cfg.
Proof.
  rewrite handler_unfold. unfold returned.
  destruct (getSingleAccountConfigFromTable env w).1
    as [e|[|[cfg|] rest]];
    simpl.
  1, 2, 4: exists [Scan]; (split; [done|]);
    intros c Hc Hcreate; apply list_elem_of_singleton in Hc; by subst.
  - destruct (needs_create cfg) eqn:Hneeds.
    + rewrite (handler_selected_create _ _ Hneeds).
      destruct (handler_create_summary env cfg (logged Scan w))
        as (_ & (more & Hlog & Hmore) & _).
      exists (Scan :: create_call env cfg :: more). split.
      * rewrite Hlog. simpl. by rewrite <- app_assoc.
      * intros c Hc Hcreate.
        apply elem_of_cons in Hc as [->|Hc]; [done|].
        apply elem_of_cons in Hc as [->|Hc]; [by eauto|].
        rewrite Forall_forall in Hmore. specialize (Hmore c Hc). congruence.
    + apply needs_create_false in Hneeds as (requestId & Hid & Hne).
      rewrite (handler_selected_status _ _ _ Hid Hne).
      destruct (handler_status_summary env cfg requestId (logged Scan w))
        as (_ & (calls & Hlog & Hcalls) & _).
      exists (Scan :: calls). split.
      * rewrite Hlog. simpl. by rewrite <- app_assoc.
      * intros c Hc Hcreate.
        apply elem_of_cons in Hc as [->|Hc]; [done|].
        rewrite Forall_forall in Hcalls. specialize (Hcalls c Hc). congruence.
Qed.

(** What one invocation can do to the request table. *)
Lemma handler_table env w :
  let t := newOrgAccountsTable w in
  let t' := newOrgAccountsTable (handler env w).2 in
  t' = t
  ∨ ∃ cfg rest,
      returned (getSingleAccountConfigFromTable env w) (Some cfg :: rest)
      ∧ ((needs_create cfg = true
          ∧ ∃ id, t' = <[email cfg := set_createRequestId cfg id]> t)
         ∨ t' = delete (email cfg) t).
Proof.
  rewrite handler_unfold. unfold returned.
  destruct (getSingleAccountConfigFromTable env w).1
    as [e|[|[cfg|] rest]];
    simpl; [by left | by left | | by left].
  destruct (needs_create cfg) eqn:Hneeds.
  - rewrite (handler_selected_create _ _ Hneeds).
    destruct (handler_create_summary env cfg (logged Scan w))
      as (_ & _ & [H|[[id H]|H]]);
      simpl in H; [by left | right | right];
      exists cfg, rest; eauto 8.
  - apply needs_create_false in Hneeds as (requestId & Hid & Hne).
    rewrite (handler_selected_status _ _ _ Hid Hne).
    destruct (handler_status_summary env cfg requestId (logged Scan w))
      as (_ & _ & [H|H]);
      simpl in H; [by left | right].
    exists cfg, rest; eauto.
Qed.

Lemma handler_keeps_keyed_by_email env w :
  keyed_by_email (newOrgAccountsTable w) →
  keyed_by_email (newOrgAccountsTable (handler env w).2).
Proof.
  intros Hkeyed.
  destruct (handler_table env w) as [->|(cfg & rest & _ & [[_ [id ->]]| ->])];
    [done | |]; intros key cfg' Hrow.
  - destruct (decide (email cfg = key)) as [<-|Hne].
    + rewrite lookup_insert_eq in Hrow. by simplify_eq.
    + rewrite lookup_insert_ne in Hrow by done. eauto.
  - apply lookup_delete_Some in Hrow as [_ Hrow]. eauto.
Qed.

Lemma handler_keeps_not_pending env w key :
  scan_sound env →
  keyed_by_email (newOrgAccountsTable w) →
  not_pending key (newOrgAccountsTable w) →
  not_pending key (newOrgAccountsTable (handler env w).2).
Proof.
  intros Hsound Hkeyed Hkey.
  destruct (handler_table env w)
    as [->|(cfg & rest & Hsel & [[Hneeds [id ->]]| ->])];
    [done | |]; intros cfg' Hrow.
  - destruct (decide (email cfg = key)) as [<-|Hne].
    + pose proof (getSingleAccountConfigFromTable_sound _ _ _ _
                    Hsound Hkeyed Hsel) as Hcfg.
      specialize (Hkey _ Hcfg). congruence.
    + rewrite lookup_insert_ne in Hrow by done. eauto.
  - apply lookup_delete_Some in Hrow as [_ Hrow]. eauto.
Qed.

Lemma handler_no_create_for env w key :
  scan_sound env →
  keyed_by_email (newOrgAccountsTable w) →
  not_pending key (newOrgAccountsTable w) →
  ∃ calls,
    sdkCalls (handler env w).2 = sdkCalls w ++ calls
    ∧ Forall (λ c, is_create_for key c = false) calls.
Proof.
  intros Hsound Hkeyed Hkey.
  destruct (handler_log env w) as (calls & Hlog & Hcreate).
  exists calls. split; [done|].
  apply Forall_forall. intros c Hc.
  destruct (is_create_for key c) eqn:Hfor; [exfalso | done].
  assert (is_create c = true) as Hc'.
  { by destruct c. }
  destruct (Hcreate c Hc Hc') as (cfg & rest & Hsel & Hneeds & ->).
  pose proof (getSingleAccountConfigFromTable_sound _ _ _ _
                Hsound Hkeyed Hsel) as Hcfg.
  assert (email cfg = key) as <-.
  { unfold create_call in Hfor.
    case_bool_decide; simpl in Hfor; by apply bool_decide_eq_true in Hfor. }
  specialize (Hkey _ Hcfg). congruence.
Qed.

Lemma invocations_no_create_for envs w key :
  Forall scan_sound envs →
  keyed_by_email (newOrgAccountsTable w) →
  not_pending key (newOrgAccountsTable w) →
  ∃ calls,
    sdkCalls (invocations envs w).2 = sdkCalls w ++ calls
    ∧ Forall (λ c, is_create_for key c = false) calls.
Proof.
  intros Hsound. revert w.
  induction Hsound as [|env envs Henv _ IH]; intros w Hkeyed Hkey; simpl.
  - exists []. split; [by rewrite app_nil_r | constructor].
  - destruct (handler_no_create_for env w key Henv Hkeyed Hkey)
      as (calls1 & Hlog1 & Hnone1).
    pose proof (handler_keeps_keyed_by_email env w Hkeyed) as Hkeyed'.
    pose proof (handler_keeps_not_pending env w key Henv Hkeyed Hkey) as Hkey'.
    destruct (handler env w) as [r w']. simpl in *.
    destruct (IH w' Hkeyed' Hkey') as (calls2 & Hlog2 & Hnone2).
    destruct (invocations envs w') as [rs w'']. simpl in *.
    exists (calls1 ++ calls2). split.
    + by rewrite Hlog2, Hlog1, app_assoc.
    + by apply Forall_app.
Qed.

(** C1. A Create call, of either variant, is issued only by an invocation
    whose selected request has a createRequestId that is undefined or
    empty, and it is issued for that request.  Hence, once the row of an
    email carries a non-empty request id, no later invocation in any run
    of the scheduler issues a Create call for that email. *)
Theorem create_at_most_once :
  (∀ env w c,
     c ∈ calls_since w (handler env w).2 →
     is_create c = true →
     ∃ cfg rest,
       returned (getSingleAccountConfigFromTable env w) (Some cfg :: rest)
       ∧ (createRequestId cfg = None ∨ createRequestId cfg = Some "")
       ∧ c = create_call env cfg)
  ∧ (∀ envs w key cfg requestId,
       Forall scan_sound envs →
       keyed_by_email (newOrgAccountsTable w) →
       newOrgAccountsTable w !! key = Some cfg →
       createRequestId cfg = Some requestId →
       requestId ≠ "" →
       Forall (λ c, is_create_for key c = false)
         (calls_since w (invocations envs w).2)).
Proof.
  split.
  - intros env w c Hc Hcreate.
    destruct (handler_log env w) as (calls & Hlog & Honly).
    rewrite (calls_since_app _ _ _ Hlog) in Hc.
    destruct (Honly c Hc Hcreate) as (cfg & rest & Hsel & Hneeds & ->).
    exists cfg, rest. split_and!; [done | | done].
    by apply needs_create_true.
  - intros envs w key cfg requestId Hsound Hkeyed Hrow Hid Hne.
    assert (not_pending key (newOrgAccountsTable w)) as Hkey.
    { intros cfg' Hrow'. simplify_eq. apply needs_create_false. eauto. }
    destruct (invocations_no_create_for envs w key Hsound Hkeyed Hkey)
      as (calls & Hlog & Hnone).
    by rewrite (calls_since_app _ _ _ Hlog).
Qed.

(** ** Unguarded dereferences on the SUCCEEDED path *)


Lemma find_rootOrg_None roots :
  find_rootOrg roots = None ↔ ¬ has_default_root roots.
Proof.
  unfold find_rootOrg, has_default_root.
  destruct (Roots roots) as [l|]; simpl.
  - split.
    + intros Hfind (l' & rootOrg & [= <-] & Hin & Hname).
      apply list_elem_of_In in Hin.
      pose proof (find_none _ _ Hfind _ Hin) as Hno. simpl in Hno.
      by apply bool_decide_eq_false in Hno.
    + intros Hno.
      destruct (find _ l) as [rootOrg|] eqn:Hfind; [exfalso | done].
      apply find_some in Hfind as [Hin Hname].
      apply bool_decide_eq_true in Hname.
      apply Hno. exists l, rootOrg. by rewrite list_elem_of_In.
  - split; [|done]. intros _ (l & ? & ? & _). done.
Qed.


Lemma status_call_plain env cfg :
  (∀ params, status_call env cfg ≠ MoveAccount params)
  ∧ (∀ item, status_call env cfg ≠ PutGovCloudMapping item)
  ∧ well_defined (status_call env cfg) = true.
Proof.
  unfold status_call, create_call. by repeat case_match.
Qed.


(** ** The SUCCEEDED block, answer by answer *)

(** Without a GovCloud account id: whatever status the move and the delete
    are answered with, the block completes; the row is deleted when the
    delete is confirmed. *)
Lemma case_SUCCEEDED_plain
    env status cfg w roots rootOrg moveStatus deleteStatus :
  truthy (CreateAccountStatus.GovCloudAccountId status) = false →
  listRoots env = inr roots →
  find_rootOrg roots = Some rootOrg →
  let params :=
    {| move_AccountId := CreateAccountStatus.AccountId status;
       move_DestinationParentId := organizationalUnitId cfg;
       move_SourceParentId := Root.Id rootOrg |} in
  moveAccount env params = inr moveStatus →
  delete_accountConfig env (email cfg) = inr deleteStatus →
  let w3 := logged (DeleteAccountConfig (email cfg))
              (logged (MoveAccount params) (logged ListRoots w)) in
  case_SUCCEEDED env status cfg w =
    (inr tt, if confirmed deleteStatus
             then with_newOrgAccounts (delete (email cfg)) w3
             else w3).
Proof.
  intros Hgov Hroots Hfind params Hmove Hdelete w3.
  unfold case_SUCCEEDED, bind, truthy in *.
  assert (match CreateAccountStatus.GovCloudAccountId status with
          | Some govCloudAccountId =>
              if bool_decide (govCloudAccountId = "") then ret ()
              else λ w0 : World,
                     let (s, w') :=
                       saveGovCloudAccountMapping env
                         (CreateAccountStatus.AccountId status)
                         govCloudAccountId
                         (CreateAccountStatus.AccountName status) w0 in
                     match s with
                     | inl e => (inl e, w')
                     | inr _ => ret () w'
                     end
          | None => ret ()
          end = ret ()) as ->.
  { destruct (CreateAccountStatus.GovCloudAccountId status); [|done].
    by destruct (bool_decide (s = "")). }
  unfold ret at 1.
  rewrite moveAccountToOrgIdFromRoot_run, Hroots, Hfind. simpl.
  fold params. rewrite Hmove.
  rewrite deleteSingleAccountConfigFromTable_run, Hdelete. simpl.
  by destruct (confirmed deleteStatus).
Qed.

(** With a GovCloud account id: the mapping is put first; whatever status
    the three writes and the move are answered with, the block
    completes. *)
Lemma case_SUCCEEDED_govcloud
    env status cfg w gov roots rootOrg mappingStatus moveStatus deleteStatus :
  CreateAccountStatus.GovCloudAccountId status = Some gov →
  gov ≠ "" →
  let item :=
    {| commericalAccountId := CreateAccountStatus.AccountId status;
       govCloudAccountId := gov;
       accountName := CreateAccountStatus.AccountName status |} in
  put_mapping env item = inr mappingStatus →
  listRoots env = inr roots →
  find_rootOrg roots = Some rootOrg →
  let params :=
    {| move_AccountId := CreateAccountStatus.AccountId status;
       move_DestinationParentId := organizationalUnitId cfg;
       move_SourceParentId := Root.Id rootOrg |} in
  moveAccount env params = inr moveStatus →
  delete_accountConfig env (email cfg) = inr deleteStatus →
  let w1 := logged (PutGovCloudMapping item) w in
  let w1' := if confirmed mappingStatus
             then with_govCloudMapping (upsert_mapping item) w1
             else w1 in
  let w3 := logged (DeleteAccountConfig (email cfg))
              (logged (MoveAccount params) (logged ListRoots w1')) in
  case_SUCCEEDED env status cfg w =
    (inr tt, if confirmed deleteStatus
             then with_newOrgAccounts (delete (email cfg)) w3
             else w3).
Proof.
  intros Hgov Hne item Hput Hroots Hfind params Hmove Hdelete w1 w1' w3.
  unfold case_SUCCEEDED. rewrite Hgov, bool_decide_eq_false_2 by done.
  unfold bind.
  rewrite saveGovCloudAccountMapping_run. simpl. fold item. rewrite Hput.
  fold w1. subst w3 w1'.
  destruct (confirmed mappingStatus); unfold ret at 1;
    rewrite moveAccountToOrgIdFromRoot_run, Hroots, Hfind; simpl;
    fold params; rewrite Hmove;
    rewrite deleteSingleAccountConfigFromTable_run, Hdelete; simpl;
    by destruct (confirmed deleteStatus).
Qed.

(** ** The three-call scenario *)

Section Scenario.

Variables env1 env2 env3 : Env.
Variable w : World.
Variable cfg : AccountConfig.

(** The store holds exactly one request, for "a@x.com", bound for "ou-1",
    not yet submitted, of the standard variant. *)
Hypothesis store : newOrgAccountsTable w = {[ "a@x.com" := cfg ]}.
Hypothesis cfg_email : email cfg = "a@x.com".
Hypothesis cfg_variant : enableGovCloud cfg ≠ JsString "true".
Hypothesis cfg_group : organizationalUnitId cfg = "ou-1".
Hypothesis cfg_new : createRequestId cfg = None.

Hypothesis scan1 : scan_faithful env1.
Hypothesis scan2 : scan_faithful env2.
Hypothesis scan3 : scan_faithful env3.

(** Call 1: Create is accepted as request "req-1"; the put is confirmed. *)
Variable response1 : CreateAccountResponse.
Variable status1 : CreateAccountStatus.t.
Hypothesis create1 : createAccount env1 (create_params env1 cfg) = inr response1.
Hypothesis create1_status : CreateAccountStatus response1 = Some status1.
Hypothesis create1_state :
  CreateAccountStatus.State status1 = Some "IN_PROGRESS".
Hypothesis create1_id : CreateAccountStatus.Id status1 = Some "req-1".
Hypothesis put1 :
  put_accountConfig env1 "a@x.com" (set_createRequestId cfg (Some "req-1"))
  = inr 200.

(** Call 2: Describe-Status("req-1") reports SUCCEEDED with account "111"
    and no GovCloud account; the root is found, the move and the delete
    are confirmed. *)
Variable response2 : CreateAccountResponse.
Variable status2 : CreateAccountStatus.t.
Variable roots : ListRootsResponse.
Variable rootOrg : Root.t.
Hypothesis describe2 : describeCreateAccountStatus env2 "req-1" = inr response2.
Hypothesis describe2_status : CreateAccountStatus response2 = Some status2.
Hypothesis describe2_state :
  CreateAccountStatus.State status2 = Some "SUCCEEDED".
Hypothesis describe2_account :
  CreateAccountStatus.AccountId status2 = Some "111".
Hypothesis describe2_no_secondary :
  CreateAccountStatus.GovCloudAccountId status2 = None.
Hypothesis roots2 : listRoots env2 = inr roots.
Hypothesis root2 : find_rootOrg roots = Some rootOrg.
Hypothesis move2 :
  moveAccount env2
    {| move_AccountId := Some "111";
       move_DestinationParentId := "ou-1";
       move_SourceParentId := Root.Id rootOrg |} = inr 200.
Hypothesis delete2 : delete_accountConfig env2 "a@x.com" = inr 200.

(** C6. Call 1 stores the request with createRequestId "req-1" and
    returns IsComplete = false.  Call 2 describes "req-1", moves account
    "111" from the root to "ou-1", deletes the row of "a@x.com", writes no
    mapping row and returns IsComplete = false.  Call 3 finds the table
    empty and returns IsComplete = true. *)
Theorem three_call_scenario :
  let out1 := handler env1 w in
  let out2 := handler env2 out1.2 in
  let out3 := handler env3 out2.2 in
  (returned out1 {| IsComplete := false |}
   ∧ newOrgAccountsTable out1.2 =
       {[ "a@x.com" := set_createRequestId cfg (Some "req-1") ]})
  ∧ (returned out2 {| IsComplete := false |}
     ∧ calls_since out1.2 out2.2 =
         [ Scan; DescribeCreateAccountStatus "req-1"; ListRoots;
           MoveAccount {| move_AccountId := Some "111";
                          move_DestinationParentId := "ou-1";
                          move_SourceParentId := Root.Id rootOrg |};
           DeleteAccountConfig "a@x.com" ]
     ∧ newOrgAccountsTable out2.2 = ∅
     ∧ govCloudAccountMappingTable out2.2 = govCloudAccountMappingTable w)
  ∧ returned out3 {| IsComplete := true |}
  ∧ (invocations [env1; env2; env3] w).1 =
      [ inr {| IsComplete := false |};
        inr {| IsComplete := false |};
        inr {| IsComplete := true |} ].
Proof.
  intros out1 out2 out3.
  set (cfg' := set_createRequestId cfg (Some "req-1")).
  (* call 1 *)
  assert (Hout1 : out1 =
    (inr {| IsComplete := false |},
     with_newOrgAccounts (insert "a@x.com" cfg')
       (logged (PutAccountConfig "a@x.com" cfg')
          (logged (create_call env1 cfg) (logged Scan w))))).
  { subst out1.
    rewrite (handler_selected_world _ _ cfg [])
      by by eapply getSingleAccountConfigFromTable_singleton.
    rewrite handler_selected_create
      by (apply needs_create_true; by left).
    rewrite handler_create_answer. unfold create_answer.
    rewrite bool_decide_eq_false_2 by done.
    rewrite create1, create1_status, create1_state, create1_id. simpl.
    unfold bind. rewrite updateAccountConfig_run. fold cfg'.
    replace (email cfg') with "a@x.com" by done.
    unfold cfg' at 2. by rewrite put1. }
  assert (Htable1 : newOrgAccountsTable out1.2 = {[ "a@x.com" := cfg' ]}).
  { rewrite Hout1. simpl. rewrite store. apply insert_singleton_eq. }
  (* call 2 *)
  assert (Hsucceeded : succeeded_with env2 out1.2 cfg' status2).
  { split_and!; [| |done].
    - exists []. by eapply getSingleAccountConfigFromTable_singleton.
    - exists response2. split; [|done].
      unfold status_answer. by simpl. }
  assert (Hout2 : out2 =
    (inr {| IsComplete := false |},
     with_newOrgAccounts (delete "a@x.com")
       (logged (DeleteAccountConfig "a@x.com")
          (logged (MoveAccount
                     {| move_AccountId := Some "111";
                        move_DestinationParentId := "ou-1";
                        move_SourceParentId := Root.Id rootOrg |})
             (logged ListRoots
                (logged (DescribeCreateAccountStatus "req-1")
                   (logged Scan out1.2))))))).
  { subst out2. rewrite (handler_succeeded _ _ _ _ Hsucceeded).
    unfold bind.
    rewrite (case_SUCCEEDED_plain env2 status2 cfg' _ roots rootOrg 200 200).
    - simpl. rewrite cfg_email, cfg_group, describe2_account.
      unfold status_call. by simpl.
    - unfold truthy. by rewrite describe2_no_secondary.
    - done.
    - done.
    - simpl. by rewrite cfg_group, describe2_account.
    - simpl. by rewrite cfg_email. }
  assert (Htable2 : newOrgAccountsTable out2.2 = ∅).
  { rewrite Hout2. simpl. rewrite Htable1. apply delete_singleton_eq. }
  (* call 3 *)
  assert (Hout3 : out3.1 = inr {| IsComplete := true |}).
  { subst out3. rewrite handler_unfold.
    by rewrite (getSingleAccountConfigFromTable_empty _ _ scan3 Htable2). }
  split_and!.
  - by rewrite Hout1.
  - done.
  - by rewrite Hout2.
  - rewrite Hout2. simpl. apply calls_since_app. simpl.
    by rewrite <- !app_assoc.
  - done.
  - rewrite Hout2, Hout1. done.
  - done.
  - simpl. fold out1. destruct out1 as [r1 w1] eqn:H1. simpl in *.
    fold out2. destruct out2 as [r2 w2] eqn:H2. simpl in *.
    fold out3. destruct out3 as [r3 w3] eqn:H3. simpl in *.
    by simplify_eq.
Qed.

End Scenario.

(** ** The mapping write *)

Lemma rows_of_lookup (table : gmap string GovCloudAccountMapping) key item :
  table !! key = Some item → rows_of key table = [(key, item)].
Proof.
  intros Hrow. unfold rows_of.
  apply Permutation_singleton_r. apply NoDup_Permutation.
  - apply NoDup_filter, NoDup_map_to_list.
  - apply NoDup_singleton.
  - intros [k v].
    rewrite list_elem_of_filter, elem_of_map_to_list, list_elem_of_singleton.
    simpl. split.
    + intros [-> Hv]. congruence.
    + intros [= -> ->]. done.
Qed.

(** C8. The mapping write is an unconditional upsert keyed by the primary
    account id: after a confirmed write the table holds exactly one row
    for that id, with the values written, whatever it held before; a
    second confirmed write for the same id leaves exactly one row, with
    the latest values, and no other row changes; writing the same mapping
    twice leaves the table as writing it once. *)
Theorem mapping_write_idempotent
    env1 env2 key gov1 name1 gov2 name2 w :
  let item1 := {| commericalAccountId := Some key;
                  govCloudAccountId := gov1;
                  accountName := name1 |} in
  let item2 := {| commericalAccountId := Some key;
                  govCloudAccountId := gov2;
                  accountName := name2 |} in
  put_mapping env1 item1 = inr 200 →
  put_mapping env2 item2 = inr 200 →
  let once := (saveGovCloudAccountMapping env1 (Some key) gov1 name1 w).2 in
  let twice :=
    (saveGovCloudAccountMapping env2 (Some key) gov2 name2 once).2 in
  rows_of key (govCloudAccountMappingTable once) = [(key, item1)]
  ∧ rows_of key (govCloudAccountMappingTable twice) = [(key, item2)]
  ∧ (∀ other, other ≠ key →
       govCloudAccountMappingTable twice !! other
       = govCloudAccountMappingTable w !! other)
  ∧ (item1 = item2 →
     govCloudAccountMappingTable twice = govCloudAccountMappingTable once).
Proof.
  intros item1 item2 Hput1 Hput2 once twice. subst once twice.
  rewrite !saveGovCloudAccountMapping_run. simpl.
  fold item1 item2. rewrite Hput1. simpl. rewrite Hput2. simpl.
  unfold upsert_mapping. simpl.
  split_and!.
  - apply rows_of_lookup, lookup_insert_eq.
  - apply rows_of_lookup, lookup_insert_eq.
  - intros other Hother. by rewrite !lookup_insert_ne.
  - intros ->. apply insert_insert_eq.
Qed.

(** * The theorems at the sample environments *)

Lemma sample_scan_faithful described listed mapping_status move_status delete_status :
  scan_faithful
    (Sample.env_with described listed mapping_status move_status delete_status).
Proof.
  intros table. eexists. split; [reflexivity|]. simpl.
  destruct (map_to_list table) as [|[key cfg] rows] eqn:Hrows; simpl.
  - by apply map_to_list_empty_iff.
  - exists cfg. split; [done|].
    apply elem_of_map_to_list. rewrite Hrows. by left.
Qed.

Lemma sample_scan_sound described listed mapping_status move_status delete_status :
  scan_sound
    (Sample.env_with described listed mapping_status move_status delete_status).
Proof.
  intros table out item rest cfg' [= <-]. simpl.
  destruct (map_to_list table) as [|[key cfg] rows] eqn:Hrows; simpl; [done|].
  intros [= <- _]. simpl. intros [= <-].
  apply elem_of_map_to_list. rewrite Hrows. by left.
Qed.

Lemma sample_keyed_by_email cfg :
  keyed_by_email (newOrgAccountsTable (Sample.world_of cfg)).
Proof.
  intros key cfg' Hrow. simpl in Hrow.
  by apply lookup_singleton_Some in Hrow as [<- <-].
Qed.

Lemma create_at_most_once_witness :
  Forall (λ c, is_create_for "a@x.com" c = false)
    (calls_since Sample.world_submitted
       (invocations [Sample.env_waiting; Sample.env] Sample.world_submitted).2).
Proof.
  apply (proj2 create_at_most_once
           [Sample.env_waiting; Sample.env] Sample.world_submitted
           "a@x.com" Sample.submitted "req-1").
  - repeat constructor; apply sample_scan_sound.
  - apply sample_keyed_by_email.
  - vm_compute; reflexivity.
  - reflexivity.
  - discriminate.
Defined.

Lemma pending_create_persists_request_id_witness :
  returned (handler Sample.env Sample.world) {| IsComplete := false |}
  ∧ ∃ stored,
      newOrgAccountsTable (handler Sample.env Sample.world).2 !! "a@x.com"
      = Some stored
      ∧ createRequestId stored = Some "req-1"
      ∧ name stored = "a"
      ∧ organizationalUnitId stored = "ou-1".
Proof.
  destruct (pending_create_persists_request_id
              Sample.env Sample.world Sample.request []
              Sample.in_progress
              Sample.in_progress_status)
    as (_ & Hconfirmed & _).
  - vm_compute; reflexivity.
  - reflexivity.
  - reflexivity.
  - reflexivity.
  - reflexivity.
  - destruct Hconfirmed as (Hreturned & Hrow & _); [reflexivity|].
    split; [exact Hreturned|].
    eexists. split; [exact Hrow|]. repeat split.
Defined.

Lemma handler_complete_iff_none_selected_witness :
  returned (getSingleAccountConfigFromTable Sample.env Sample.world)
    [Some Sample.request]
  ∧ (returned (handler Sample.env Sample.world) {| IsComplete := false |}
     ∨ threw (handler Sample.env Sample.world)).
Proof.
  split; [vm_compute; reflexivity|].
  apply (proj2 (handler_complete_iff_none_selected Sample.env Sample.world)
           (Some Sample.request) []).
  vm_compute; reflexivity.
Defined.

Lemma three_call_scenario_witness :
  (invocations [Sample.env; Sample.env; Sample.env] Sample.world).1 =
    [ inr {| IsComplete := false |};
      inr {| IsComplete := false |};
      inr {| IsComplete := true |} ].
Proof.
  destruct (three_call_scenario Sample.env Sample.env Sample.env
              Sample.world Sample.request)
    with (response1 := Sample.in_progress)
         (status1 := Sample.in_progress_status)
         (response2 := Sample.succeeded None)
         (status2 := Sample.succeeded_status None)
         (roots := Sample.roots)
         (rootOrg := Sample.default_root)
    as (_ & _ & _ & Hrun);
    first [ exact Hrun
          | apply sample_scan_faithful
          | discriminate
          | reflexivity ].
Defined.

Lemma waiting_leaves_stores_unchanged_witness :
  returned (handler Sample.env_waiting Sample.world_submitted)
    {| IsComplete := false |}
  ∧ newOrgAccountsTable
      (handler Sample.env_waiting Sample.world_submitted).2
    = newOrgAccountsTable Sample.world_submitted.
Proof.
  destruct (waiting_leaves_stores_unchanged
              Sample.env_waiting Sample.world_submitted Sample.submitted []
              "req-1" Sample.in_progress
              Sample.in_progress_status)
    as (Hreturned & Htable & _).
  - vm_compute; reflexivity.
  - reflexivity.
  - discriminate.
  - reflexivity.
  - reflexivity.
  - reflexivity.
  - split; [exact Hreturned | exact Htable].
Defined.

Lemma mapping_write_idempotent_witness :
  let once :=
    (saveGovCloudAccountMapping Sample.env_govcloud
       (Some "111") "gov-1" (Some "a") Sample.world).2 in
  let twice :=
    (saveGovCloudAccountMapping Sample.env_govcloud
       (Some "111") "gov-1" (Some "a") once).2 in
  rows_of "111" (govCloudAccountMappingTable twice) = [("111", Sample.mapping)]
  ∧ govCloudAccountMappingTable twice = govCloudAccountMappingTable once.
Proof.
  destruct (mapping_write_idempotent
              Sample.env_govcloud Sample.env_govcloud
              "111" "gov-1" (Some "a") "gov-1" (Some "a") Sample.world)
    as (_ & Hrows & _ & Hsame).
  - reflexivity.
  - reflexivity.
  - split; [exact Hrows | apply Hsame; reflexivity].
Defined.

Lemma govcloud_variant_iff_exact_string_witness :
  let w := Sample.world_of Sample.request_bool in
  let calls := calls_since w (handler Sample.env w).2 in
  CreateAccount (create_params Sample.env Sample.request_bool) ∈ calls
  ∧ ∀ params, CreateGovCloudAccount params ∉ calls.
Proof.
  destruct (govcloud_variant_iff_exact_string
              Sample.env (Sample.world_of Sample.request_bool)
              Sample.request_bool [])
    as (_ & _ & Hother).
  - vm_compute; reflexivity.
  - reflexivity.
  - apply Hother. simpl. by left.
Defined.


(** * Further properties of the handler *)

(** ** The scan *)

(** X1. The scan helper issues one Scan and writes nothing.  It passes a
    rejection on.  When the answer has items it parses the accountConfig
    attribute of the first one: the text of a record gives that record,
    the text null gives null, and a text that is not JSON (or a missing
    attribute) throws the SyntaxError of JSON.parse.  It returns the empty
    list when Items is undefined or empty: the test
    [Items?.length ?? 0 > 0] acts as a non-emptiness test.  It never
    returns more than one record and never throws a TypeError. *)
Theorem scan_selects_first_item env w :
  let out := getSingleAccountConfigFromTable env w in
  let answer := scan env (newOrgAccountsTable w) in
  out.2 = logged Scan w
  ∧ (∀ e, answer = inl e → out.1 = inl (SdkRejected e))
  ∧ (∀ response item items,
       answer = inr response → Items response = Some (item :: items) →
       (∀ cfg, accountConfig item = RecordText cfg → out.1 = inr [Some cfg])
       ∧ (accountConfig item = NullText → out.1 = inr [None])
       ∧ (accountConfig item = NotJson → out.1 = inl JsSyntaxError))
  ∧ (∀ response,
       answer = inr response →
       Items response = None ∨ Items response = Some [] →
       out.1 = inr [])
  ∧ (∀ l, out.1 = inr l → (length l ≤ 1)%nat)
  ∧ (∀ m, out.1 ≠ inl (JsTypeError m)).
Proof.
  intros out answer. subst out answer.
  rewrite getSingleAccountConfigFromTable_run. simpl.
  destruct (scan env (newOrgAccountsTable w)) as [e|response].
  - split_and!; try done.
    + by intros ? [= ->].
  - split_and!; try done.
    + intros ? item items [= <-] ->.
      split_and!; [by intros cfg -> | by intros -> | by intros ->].
    + intros ? [= <-] [-> | ->]; done.
    + intros l.
      destruct (Items response) as [[|item items]|]; simpl;
        [intros [= <-]; simpl; lia | | intros [= <-]; simpl; lia].
      destruct (accountConfig item); intros [= <-]; simpl; lia.
    + intros m.
      destruct (Items response) as [[|item items]|]; simpl; try done.
      by destruct (accountConfig item).
Qed.

(** ** The kinds of invocation *)

Lemma status_of_create env cfg :
  needs_create cfg = true →
  status_call env cfg = create_call env cfg
  ∧ status_answer env cfg = create_answer env cfg.
Proof.
  intros [Hid|Hid]%needs_create_true;
    unfold status_call, status_answer; by rewrite Hid.
Qed.

Lemma status_of_describe env cfg requestId :
  createRequestId cfg = Some requestId → requestId ≠ "" →
  status_call env cfg = DescribeCreateAccountStatus requestId
  ∧ status_answer env cfg = describeCreateAccountStatus env requestId.
Proof.
  intros Hid Hne. unfold status_call, status_answer.
  by rewrite Hid, bool_decide_eq_false_2.
Qed.

(** Every invocation is of one of these kinds: nothing was selected; or a
    request was selected and its status call was rejected, or answered
    with a state that is neither IN_PROGRESS nor SUCCEEDED, or answered
    IN_PROGRESS (to Describe-Status, or to Create), or SUCCEEDED. *)
Lemma handler_cases env w :
  ((∀ cfg rest,
      ¬ returned (getSingleAccountConfigFromTable env w) (Some cfg :: rest))
   ∧ (handler env w = (inr {| IsComplete := true |}, logged Scan w)
      ∨ ∃ e, handler env w = (inl e, logged Scan w)
             ∧ scan_exception env w e))
  ∨ ∃ cfg rest,
      returned (getSingleAccountConfigFromTable env w) (Some cfg :: rest)
      ∧ let w1 := logged (status_call env cfg) (logged Scan w) in
        ((∃ e, status_answer env cfg = inl e
               ∧ handler env w = (inl (SdkRejected e), w1))
         ∨ (∃ response,
              status_answer env cfg = inr response
              ∧ state_of response ≠ Some "IN_PROGRESS"
              ∧ state_of response ≠ Some "SUCCEEDED"
              ∧ handler env w =
                  (inl (JsError
                          (if needs_create cfg
                           then create_failed_message cfg response
                           else status_failed_message cfg response)), w1))
         ∨ (∃ response status,
              needs_create cfg = false
              ∧ status_answer env cfg = inr response
              ∧ CreateAccountStatus response = Some status
              ∧ CreateAccountStatus.State status = Some "IN_PROGRESS"
              ∧ handler env w = (inr {| IsComplete := false |}, w1))
         ∨ (∃ response status,
              needs_create cfg = true
              ∧ create_answer env cfg = inr response
              ∧ CreateAccountStatus response = Some status
              ∧ CreateAccountStatus.State status = Some "IN_PROGRESS"
              ∧ handler env w =
                  bind (updateAccountConfig env
                          (set_createRequestId cfg
                             (CreateAccountStatus.Id status)))
                    (λ r, if negb r
                          then throw (JsError
                            "Unable to update DynamoDB account record with request id")
                          else ret {| IsComplete := false |}) w1)
         ∨ (∃ status, succeeded_with env w cfg status)).
Proof.
  destruct (getSingleAccountConfigFromTable env w).1
    as [e|[|[cfg|] rest]] eqn:Hsel.
  - left. split; [intros ? ?; unfold returned; congruence|].
    right. exists e. rewrite handler_unfold, Hsel. split; [done|].
    rewrite getSingleAccountConfigFromTable_run in Hsel. simpl in Hsel.
    unfold scan_exception.
    destruct (scan env (newOrgAccountsTable w)) as [a|response];
      [simplify_eq; left; by eauto|].
    destruct (Items response) as [[|item items]|] eqn:Hitems; try done.
    destruct (accountConfig item) eqn:Htext; simplify_eq.
    right; left. by eauto 10.
  - left. split; [intros ? ?; unfold returned; congruence|].
    left. by rewrite handler_unfold, Hsel.
  - right. exists cfg, rest. split; [done|].
    rewrite (handler_selected_world _ _ _ _ Hsel).
    assert (Hsucceeded : ∀ response status,
      status_answer env cfg = inr response →
      CreateAccountStatus response = Some status →
      CreateAccountStatus.State status = Some "SUCCEEDED" →
      succeeded_with env w cfg status).
    { intros response status ? ? ?. split_and!; eauto. }
    unfold state_of.
    destruct (needs_create cfg) eqn:Hneeds.
    + destruct (status_of_create env cfg Hneeds) as [Hcall Hanswer].
      rewrite Hcall, Hanswer in *.
      rewrite (handler_selected_create _ _ Hneeds), handler_create_answer.
      simpl.
      destruct (create_answer env cfg) as [e|response]; [left; by eauto|].
      destruct (CreateAccountStatus response) as [status|] eqn:Hstatus;
        [|right; left; exists response; rewrite Hstatus; split_and!; done].
      case_bool_decide as Hpending; [do 3 right; left; by eauto 10|].
      case_bool_decide as Hdone; [do 4 right; by eauto|].
      right; left. exists response. rewrite Hstatus. simpl.
      split_and!; congruence.
    + apply needs_create_false in Hneeds as (requestId & Hid & Hne).
      destruct (status_of_describe env cfg requestId Hid Hne)
        as [Hcall Hanswer].
      rewrite Hcall, Hanswer in *.
      rewrite (handler_selected_status _ _ _ Hid Hne), handler_status_answer.
      simpl.
      destruct (describeCreateAccountStatus env requestId) as [e|response];
        [left; by eauto|].
      destruct (CreateAccountStatus response) as [status|] eqn:Hstatus;
        [|right; left; exists response; rewrite Hstatus; split_and!; done].
      case_bool_decide as Hpending; [do 2 right; left; by eauto 10|].
      case_bool_decide as Hdone; [do 4 right; by eauto|].
      right; left. exists response. rewrite Hstatus. simpl.
      split_and!; congruence.
  - left. split; [intros ? ?; unfold returned; congruence|].
    right. eexists. rewrite handler_unfold, Hsel. split; [done|].
    rewrite getSingleAccountConfigFromTable_run in Hsel. simpl in Hsel.
    unfold scan_exception.
    destruct (scan env (newOrgAccountsTable w)) as [a|response]; [done|].
    destruct (Items response) as [[|item items]|] eqn:Hitems; try done.
    destruct (accountConfig item) eqn:Htext; simplify_eq.
    right; right. by eauto 10.
Qed.

Lemma bind_case_SUCCEEDED env status cfg (result : HandlerResult) w :
  bind (case_SUCCEEDED env status cfg) (λ _, ret result) w =
  (match (case_SUCCEEDED env status cfg w).1 with
   | inl e => inl e
   | inr _ => inr result
   end, (case_SUCCEEDED env status cfg w).2).
Proof.
  unfold bind. by destruct (case_SUCCEEDED env status cfg w) as [[e|u] w'].
Qed.

Lemma bind_updateAccountConfig env cfg w :
  bind (updateAccountConfig env cfg)
    (λ r, if negb r
          then throw (JsError
            "Unable to update DynamoDB account record with request id")
          else ret {| IsComplete := false |}) w =
  let w1 := logged (PutAccountConfig (email cfg) cfg) w in
  match put_accountConfig env (email cfg) cfg with
  | inl e => (inl (SdkRejected e), w1)
  | inr statusCode =>
      if confirmed statusCode
      then (inr {| IsComplete := false |},
            with_newOrgAccounts (insert (email cfg) cfg) w1)
      else (inl (JsError
                   "Unable to update DynamoDB account record with request id"),
            w1)
  end.
Proof.
  unfold bind. rewrite updateAccountConfig_run. simpl.
  destruct (put_accountConfig env (email cfg) cfg) as [e|statusCode]; [done|].
  by destruct (confirmed statusCode).
Qed.

(** ** What the handler throws *)



(** ** Frames *)

(** X3. An invocation changes no row of the request table other than the
    row stored under the email of the request it selected. *)
Theorem handler_touches_only_selected_row env w key :
  (∀ cfg rest,
     returned (getSingleAccountConfigFromTable env w) (Some cfg :: rest) →
     email cfg ≠ key) →
  newOrgAccountsTable (handler env w).2 !! key = newOrgAccountsTable w !! key.
Proof.
  intros Hother.
  destruct (handler_table env w)
    as [->|(cfg & rest & Hsel & [[_ [id ->]]| ->])]; [done | |].
  - rewrite lookup_insert_ne; [done|]. by eapply Hother.
  - rewrite lookup_delete_ne; [done|]. by eapply Hother.
Qed.

Lemma case_SUCCEEDED_mapping env status cfg w :
  let m := govCloudAccountMappingTable w in
  let m' := govCloudAccountMappingTable (case_SUCCEEDED env status cfg w).2 in
  m' = m
  ∨ ∃ gov primary,
      CreateAccountStatus.GovCloudAccountId status = Some gov
      ∧ gov ≠ ""
      ∧ CreateAccountStatus.AccountId status = Some primary
      ∧ put_mapping env (mapping_of status gov) = inr 200
      ∧ m' = <[primary := mapping_of status gov]> m.
Proof.
  unfold case_SUCCEEDED, mapping_of.
  unfold_helpers; unfold_monad.
  branches; try (by left).
  all: unfold upsert_mapping; simpl.
  all: destruct (CreateAccountStatus.AccountId status) as [primary|];
         [|by left].
  all: right; eexists _, primary; split_and!; try done.
  all: repeat match goal with
       | H : bool_decide _ = false |- _ => apply bool_decide_eq_false in H
       | H : confirmed _ = true |- _ => apply bool_decide_eq_true in H; subst
       end; done.
Qed.

(** X4. An invocation writes the mapping table only when the creation
    status is SUCCEEDED and carries a non-empty GovCloud account id and
    an account id, and the put is confirmed; the row is then stored under
    the account id and holds the account id, the GovCloud account id and
    the account name of the status.  An absent or empty GovCloud account
    id leaves the mapping table as it was. *)
Theorem mapping_written_only_with_govcloud_id env w :
  let m := govCloudAccountMappingTable w in
  let m' := govCloudAccountMappingTable (handler env w).2 in
  m' = m
  ∨ ∃ cfg status gov primary,
      succeeded_with env w cfg status
      ∧ CreateAccountStatus.GovCloudAccountId status = Some gov
      ∧ gov ≠ ""
      ∧ CreateAccountStatus.AccountId status = Some primary
      ∧ put_mapping env (mapping_of status gov) = inr 200
      ∧ m' = <[primary := mapping_of status gov]> m.
Proof.
  destruct (handler_cases env w)
    as [[_ [H|(a & H & _)]]
       |(cfg & rest & Hsel &
         [(a & _ & H)
         |[(response & Hanswer & Hp & Hs & H)
          |[(response & status & _ & _ & _ & _ & H)
           |[(response & status & Hneeds & Hanswer & Hstatus & Hstate & H)
            |[status Hsucceeded]]]]])];
    try (rewrite H; by left).
  - rewrite H, bind_updateAccountConfig. simpl.
    destruct (put_accountConfig env _ _) as [a|statusCode]; [by left|].
    destruct (confirmed statusCode); by left.
  - rewrite (handler_succeeded _ _ _ _ Hsucceeded), bind_case_SUCCEEDED.
    simpl.
    destruct (case_SUCCEEDED_mapping env status cfg
                (logged (status_call env cfg) (logged Scan w)))
      as [H|(gov & primary & ? & ? & ? & ? & H)]; simpl in H.
    + by left.
    + right. exists cfg, status, gov, primary. done.
Qed.

(** ** Order and number of the calls *)

Lemma handler_succeeded_calls env w cfg status :
  succeeded_with env w cfg status →
  let w1 := logged (status_call env cfg) (logged Scan w) in
  calls_since w (handler env w).2 =
    Scan :: status_call env cfg
    :: calls_since w1 (case_SUCCEEDED env status cfg w1).2.
Proof.
  intros Hsucceeded w1.
  rewrite (handler_succeeded _ _ _ _ Hsucceeded), bind_case_SUCCEEDED.
  simpl. fold w1.
  destruct (case_SUCCEEDED_summary env status cfg w1)
    as [(calls & Hlog & _) _].
  rewrite (calls_since_app _ _ _ Hlog). apply calls_since_app.
  rewrite Hlog. simpl. by rewrite <- !app_assoc.
Qed.

Lemma case_SUCCEEDED_delete_last env status cfg w key :
  DeleteAccountConfig key ∈ calls_since w (case_SUCCEEDED env status cfg w).2 →
  key = email cfg
  ∧ ∃ pre roots rootOrg statusCode,
      calls_since w (case_SUCCEEDED env status cfg w).2 =
        pre ++ [ ListRoots; MoveAccount (move_params_of status cfg rootOrg);
                 DeleteAccountConfig key ]
      ∧ listRoots env = inr roots
      ∧ find_rootOrg roots = Some rootOrg
      ∧ moveAccount env (move_params_of status cfg rootOrg) = inr statusCode.
Proof.
  unfold case_SUCCEEDED, move_params_of. unfold_helpers; unfold_monad.
  branches; calls_since_log; intros Hin; explicit_calls; simplify_eq.
  all: split; [done|].
  all: first [ eexists [], _, _, _; split_and!; [reflexivity | by eauto..]
             | eexists [_], _, _, _; split_and!; [reflexivity | by eauto..] ].
Qed.

(** X5. The row of a request is deleted only as the last call of an
    invocation, right after a ListRoots that found the root and a
    MoveAccount that resolved; the delete is for the email of the selected
    request and the move was towards its organizational unit. *)
Theorem delete_only_after_move env w key :
  DeleteAccountConfig key ∈ calls_since w (handler env w).2 →
  ∃ cfg rest status pre roots rootOrg statusCode,
    returned (getSingleAccountConfigFromTable env w) (Some cfg :: rest)
    ∧ key = email cfg
    ∧ calls_since w (handler env w).2 =
        pre ++ [ ListRoots; MoveAccount (move_params_of status cfg rootOrg);
                 DeleteAccountConfig key ]
    ∧ move_DestinationParentId (move_params_of status cfg rootOrg)
      = organizationalUnitId cfg
    ∧ listRoots env = inr roots
    ∧ find_rootOrg roots = Some rootOrg
    ∧ moveAccount env (move_params_of status cfg rootOrg) = inr statusCode.
Proof.
  destruct (handler_cases env w)
    as [[_ [H|(a & H & _)]]
       |(cfg & rest & Hsel &
         [(a & _ & H)
         |[(response & Hanswer & Hp & Hs & H)
          |[(response & status & _ & _ & _ & _ & H)
           |[(response & status & Hneeds & Hanswer & Hstatus & Hstate & H)
            |[status Hsucceeded]]]]])].
  1-5: rewrite H; calls_since_log; intros Hin; explicit_calls; try done.
  1-3: destruct (status_call_plain env cfg) as (_ & _ & _);
       unfold status_call, create_call in Hin; by repeat case_match.
  - rewrite H, bind_updateAccountConfig. simpl.
    destruct (status_of_create env cfg Hneeds) as [Hcall _].
    rewrite Hcall. unfold create_call.
    destruct (put_accountConfig env _ _) as [a|statusCode];
      [|destruct (confirmed statusCode)];
      case_bool_decide; calls_since_log; intros Hin; explicit_calls; done.
  - rewrite (handler_succeeded_calls _ _ _ _ Hsucceeded). intros Hin.
    apply elem_of_cons in Hin as [?|Hin]; [done|].
    apply elem_of_cons in Hin as [Heq|Hin].
    { unfold status_call, create_call in Heq. by repeat case_match. }
    destruct (case_SUCCEEDED_delete_last _ _ _ _ _ Hin)
      as (-> & pre & roots & rootOrg & statusCode & -> & ? & ? & ?).
    exists cfg, rest, status, (Scan :: status_call env cfg :: pre),
      roots, rootOrg, statusCode.
    split_and!; done.
Qed.

Lemma case_SUCCEEDED_few_calls env status cfg w :
  let calls := calls_since w (case_SUCCEEDED env status cfg w).2 in
  (length calls ≤ 4)%nat
  ∧ Forall (λ c, is_status_request c = false ∧ c ≠ Scan) calls
  ∧ NoDup calls.
Proof.
  unfold case_SUCCEEDED. unfold_helpers; unfold_monad.
  branches; calls_since_log;
    (split_and!;
     [ simpl; lia
     | repeat (apply Forall_cons; split; [done|]); apply Forall_nil; done
     | repeat (apply NoDup_cons; split;
               [intros Hin; explicit_calls; done|]); apply NoDup_nil; done ]).
Qed.

(** The calls of an invocation: the Scan alone when no request was
    selected; otherwise the Scan, the status call of the selected request
    and at most four further calls, none of them a creation-status
    request or a Scan. *)
Lemma handler_calls_shape env w :
  let calls := calls_since w (handler env w).2 in
  ((∀ cfg rest,
      ¬ returned (getSingleAccountConfigFromTable env w) (Some cfg :: rest))
   ∧ calls = [Scan])
  ∨ ∃ cfg rest more,
      returned (getSingleAccountConfigFromTable env w) (Some cfg :: rest)
      ∧ calls = Scan :: status_call env cfg :: more
      ∧ is_status_request (status_call env cfg) = true
      ∧ (is_create (status_call env cfg) = true ↔ needs_create cfg = true)
      ∧ Forall (λ c, is_status_request c = false ∧ c ≠ Scan) more
      ∧ (length more ≤ 4)%nat.
Proof.
  assert (Hkind : ∀ cfg,
    is_status_request (status_call env cfg) = true
    ∧ (is_create (status_call env cfg) = true ↔ needs_create cfg = true)).
  { intros cfg. destruct (needs_create cfg) eqn:Hneeds.
    - destruct (status_of_create env cfg Hneeds) as [-> _].
      unfold create_call. by case_bool_decide.
    - apply needs_create_false in Hneeds as (requestId & Hid & Hne).
      destruct (status_of_describe env cfg _ Hid Hne) as [-> _].
      simpl. split; [done|]. split; intros; done. }
  destruct (handler_cases env w)
    as [[Hnone [H|(a & H & _)]]
       |(cfg & rest & Hsel &
         [(a & _ & H)
         |[(response & Hanswer & Hp & Hs & H)
          |[(response & status & _ & _ & _ & _ & H)
           |[(response & status & Hneeds & Hanswer & Hstatus & Hstate & H)
            |[status Hsucceeded]]]]])].
  1-2: left; split; [done|]; rewrite H; by calls_since_log.
  1-3: right; exists cfg, rest, []; rewrite H; calls_since_log;
       destruct (Hkind cfg); split_and!; try done; simpl; lia.
  - right. rewrite H, bind_updateAccountConfig. simpl.
    destruct (Hkind cfg) as [? ?].
    exists cfg, rest,
      [PutAccountConfig (email cfg)
         (set_createRequestId cfg (CreateAccountStatus.Id status))].
    split; [done|]. split.
    + destruct (put_accountConfig env _ _) as [a|statusCode];
        [|destruct (confirmed statusCode)]; by calls_since_log.
    + split_and!; try done; [by repeat constructor | simpl; lia].
  - right. rewrite (handler_succeeded_calls _ _ _ _ Hsucceeded).
    destruct (case_SUCCEEDED_few_calls env status cfg
                (logged (status_call env cfg) (logged Scan w)))
      as (Hlen & Hnone & _).
    destruct (Hkind cfg) as [? ?].
    exists cfg, rest, (calls_since (logged (status_call env cfg) (logged Scan w))
       (case_SUCCEEDED env status cfg
          (logged (status_call env cfg) (logged Scan w))).2).
    split_and!; done.
Qed.

(** X6. An invocation that selects no request issues the Scan and nothing
    else.  An invocation that selects a request issues the Scan, then
    exactly one creation-status request for it (a Create when the request
    has no request id, a Describe-Status otherwise), then at most four
    further calls, none of which is a creation-status request or a
    Scan. *)
Theorem handler_one_status_request env w :
  let calls := calls_since w (handler env w).2 in
  ((∀ cfg rest,
      ¬ returned (getSingleAccountConfigFromTable env w) (Some cfg :: rest)) →
   calls = [Scan])
  ∧ ∀ cfg rest,
      returned (getSingleAccountConfigFromTable env w) (Some cfg :: rest) →
      ∃ more,
        calls = Scan :: status_call env cfg :: more
        ∧ is_status_request (status_call env cfg) = true
        ∧ (is_create (status_call env cfg) = true ↔ needs_create cfg = true)
        ∧ Forall (λ c, is_status_request c = false ∧ c ≠ Scan) more
        ∧ (length more ≤ 4)%nat.
Proof.
  intros calls. subst calls.
  destruct (handler_calls_shape env w)
    as [[Hnone Hcalls]|(cfg0 & rest0 & more & Hsel0 & Hshape)].
  - split; [done|]. intros cfg rest Hsel. by destruct (Hnone cfg rest).
  - split.
    + intros Hnone. by destruct (Hnone cfg0 rest0).
    + intros cfg rest Hsel. unfold returned in Hsel, Hsel0.
      rewrite Hsel in Hsel0. injection Hsel0 as <- <-.
      by exists more.
Qed.

(** ** Failures that keep the row *)

Lemma case_SUCCEEDED_placement_fails env status cfg w :
  ((∃ e, listRoots env = inl e)
   ∨ (∃ roots, listRoots env = inr roots ∧ find_rootOrg roots = None)
   ∨ (∃ roots rootOrg e,
        listRoots env = inr roots
        ∧ find_rootOrg roots = Some rootOrg
        ∧ moveAccount env (move_params_of status cfg rootOrg) = inl e)) →
  let out := case_SUCCEEDED env status cfg w in
  (∃ e, out.1 = inl e)
  ∧ newOrgAccountsTable out.2 = newOrgAccountsTable w
  ∧ ∀ key, DeleteAccountConfig key ∉ calls_since w out.2.
Proof.
  unfold case_SUCCEEDED, move_params_of. unfold_helpers; unfold_monad.
  intros [[e He]|[(roots & Hroots & Hfind)
                 |(roots & rootOrg & e & Hroots & Hfind & Hmove)]];
    rewrite ?He, ?Hroots; simpl; rewrite ?Hfind; simpl; rewrite ?Hmove;
    branches; calls_since_log;
    (split_and!; [by eauto | done | intros key Hin; explicit_calls; done]).
Qed.

(** X7. On the SUCCEEDED path, when ListRoots is rejected, or lists no
    root named 'Root', or MoveAccount is rejected, the invocation throws,
    issues no delete and leaves the request table as it was, so that the
    request is selected again later. *)
Theorem placement_failure_keeps_row env w cfg status :
  succeeded_with env w cfg status →
  ((∃ e, listRoots env = inl e)
   ∨ (∃ roots, listRoots env = inr roots ∧ ¬ has_default_root roots)
   ∨ (∃ roots rootOrg e,
        listRoots env = inr roots
        ∧ find_rootOrg roots = Some rootOrg
        ∧ moveAccount env (move_params_of status cfg rootOrg) = inl e)) →
  threw (handler env w)
  ∧ newOrgAccountsTable (handler env w).2 = newOrgAccountsTable w
  ∧ ∀ key, DeleteAccountConfig key ∉ calls_since w (handler env w).2.
Proof.
  intros Hsucceeded Hfails.
  rewrite (handler_succeeded_calls _ _ _ _ Hsucceeded).
  rewrite (handler_succeeded _ _ _ _ Hsucceeded), bind_case_SUCCEEDED.
  unfold threw. simpl.
  destruct (case_SUCCEEDED_placement_fails env status cfg
              (logged (status_call env cfg) (logged Scan w)))
    as ([e He] & Htable & Hnone).
  { destruct Hfails as [?|[(roots & ? & Hno)|?]]; [by left | | by right; right].
    right; left. exists roots. split; [done|]. by apply find_rootOrg_None. }
  rewrite He. split_and!; [by eauto | done |].
  intros key Hin.
  apply elem_of_cons in Hin as [?|Hin]; [done|].
  apply elem_of_cons in Hin as [Heq|Hin]; [|by eapply Hnone].
  unfold status_call, create_call in Heq. by repeat case_match.
Qed.

(** ** Fatal failures under the SDK contract *)




(** X8. When the creation status asked for (by Create or by
    Describe-Status) comes back with a state that is neither IN_PROGRESS
    nor SUCCEEDED, or with no state at all, the invocation throws an
    Error whose message names the email of the request, the state and the
    failure reason; it has issued the scan and the status request only,
    and both tables are as they were. *)
Theorem other_state_is_fatal env w cfg rest response :
  returned (getSingleAccountConfigFromTable env w) (Some cfg :: rest) →
  status_answer env cfg = inr response →
  state_of response ≠ Some "IN_PROGRESS" →
  state_of response ≠ Some "SUCCEEDED" →
  let out := handler env w in
  out.1 = inl (JsError
    ("Could not create account " +:+ email cfg
     +:+ ". Response state: " +:+ template (state_of response)
     +:+ (if needs_create cfg then ". " else ", ")
     +:+ "Failure reason: " +:+ template (failureReason_of response)))
  ∧ calls_since w out.2 = [Scan; status_call env cfg]
  ∧ newOrgAccountsTable out.2 = newOrgAccountsTable w
  ∧ govCloudAccountMappingTable out.2 = govCloudAccountMappingTable w.
Proof.
  intros Hsel Hanswer Hpending Hdone out. subst out.
  assert (Hout : handler env w =
    (inl (JsError (if needs_create cfg
                   then create_failed_message cfg response
                   else status_failed_message cfg response)),
     logged (status_call env cfg) (logged Scan w))).
  { rewrite (handler_selected_world _ _ _ _ Hsel).
    unfold state_of in *.
    destruct (needs_create cfg) eqn:Hneeds.
    - destruct (status_of_create env cfg Hneeds) as [Hcall Heq].
      rewrite Hcall. rewrite Heq in Hanswer.
      rewrite (handler_selected_create _ _ Hneeds), handler_create_answer.
      rewrite Hanswer. simpl.
      destruct (CreateAccountStatus response) as [status|]; [|done].
      simpl in *. by rewrite !bool_decide_eq_false_2.
    - apply needs_create_false in Hneeds as (requestId & Hid & Hne).
      destruct (status_of_describe env cfg _ Hid Hne) as [Hcall Heq].
      rewrite Hcall. rewrite Heq in Hanswer.
      rewrite (handler_selected_status _ _ _ Hid Hne), handler_status_answer.
      rewrite Hanswer. simpl.
      destruct (CreateAccountStatus response) as [status|]; [|done].
      simpl in *. by rewrite !bool_decide_eq_false_2. }
  rewrite Hout. simpl. split_and!; try done.
  - unfold create_failed_message, status_failed_message.
    destruct (needs_create cfg); done.
  - by apply calls_since_logged2.
Qed.

(** X9. An invocation that reports completion has done nothing but the
    scan: both tables are as they were.  The same holds when the scan
    itself is rejected, and the rejection is what the handler throws. *)
Theorem completion_writes_nothing env w :
  (returned (handler env w) {| IsComplete := true |} →
   handler env w = (inr {| IsComplete := true |}, logged Scan w))
  ∧ (∀ e, scan env (newOrgAccountsTable w) = inl e →
     handler env w = (inl (SdkRejected e), logged Scan w)).
Proof.
  split.
  - rewrite handler_unfold. unfold returned.
    destruct (getSingleAccountConfigFromTable env w).1
      as [e|[|[cfg|] rest]];
      simpl; [done | done | | done].
    intros Htrue. exfalso.
    destruct (handler_selected_false_or_throws env cfg (logged Scan w))
      as [H|[e H]]; unfold returned in *; congruence.
  - intros e Hscan. rewrite handler_unfold.
    rewrite getSingleAccountConfigFromTable_run, Hscan. done.
Qed.

(** ** The SUCCEEDED path when every call goes through *)

(** X10. When the creation status is SUCCEEDED without a GovCloud account
    id (absent or empty), the root is found and the move and the delete
    are confirmed, the invocation moves the account from the root to the
    organizational unit of the request, deletes the row of the request
    and returns IsComplete = false.  A Create that answers SUCCEEDED at
    once is finished in the same invocation: no request id is stored and
    no Describe-Status is issued. *)
Theorem succeeded_moves_and_deletes env w cfg status roots rootOrg :
  succeeded_with env w cfg status →
  truthy (CreateAccountStatus.GovCloudAccountId status) = false →
  listRoots env = inr roots →
  find_rootOrg roots = Some rootOrg →
  moveAccount env (move_params_of status cfg rootOrg) = inr 200 →
  delete_accountConfig env (email cfg) = inr 200 →
  let out := handler env w in
  returned out {| IsComplete := false |}
  ∧ calls_since w out.2 =
      [ Scan; status_call env cfg; ListRoots;
        MoveAccount (move_params_of status cfg rootOrg);
        DeleteAccountConfig (email cfg) ]
  ∧ newOrgAccountsTable out.2 = delete (email cfg) (newOrgAccountsTable w)
  ∧ govCloudAccountMappingTable out.2 = govCloudAccountMappingTable w.
Proof.
  intros Hsucceeded Hgov Hroots Hfind Hmove Hdelete out. subst out.
  rewrite (handler_succeeded _ _ _ _ Hsucceeded), bind_case_SUCCEEDED.
  rewrite (case_SUCCEEDED_plain env status cfg _ roots rootOrg 200 200)
    by done.
  unfold returned. simpl. split_and!; try done.
  apply calls_since_app. simpl. by rewrite <- !app_assoc.
Qed.

(** X11. When the creation status is SUCCEEDED with an account id and a
    non-empty GovCloud account id and every call is confirmed, the
    invocation first stores the mapping row (account id, GovCloud account
    id, account name) under the account id, then moves the account,
    deletes the row of the request and returns IsComplete = false. *)
Theorem succeeded_with_govcloud_stores_mapping
    env w cfg status gov primary roots rootOrg :
  succeeded_with env w cfg status →
  CreateAccountStatus.GovCloudAccountId status = Some gov →
  gov ≠ "" →
  CreateAccountStatus.AccountId status = Some primary →
  put_mapping env (mapping_of status gov) = inr 200 →
  listRoots env = inr roots →
  find_rootOrg roots = Some rootOrg →
  moveAccount env (move_params_of status cfg rootOrg) = inr 200 →
  delete_accountConfig env (email cfg) = inr 200 →
  let out := handler env w in
  returned out {| IsComplete := false |}
  ∧ calls_since w out.2 =
      [ Scan; status_call env cfg;
        PutGovCloudMapping (mapping_of status gov); ListRoots;
        MoveAccount (move_params_of status cfg rootOrg);
        DeleteAccountConfig (email cfg) ]
  ∧ govCloudAccountMappingTable out.2 !! primary
    = Some {| commericalAccountId := Some primary;
              govCloudAccountId := gov;
              accountName := CreateAccountStatus.AccountName status |}
  ∧ (∀ other, other ≠ primary →
       govCloudAccountMappingTable out.2 !! other
       = govCloudAccountMappingTable w !! other)
  ∧ newOrgAccountsTable out.2 = delete (email cfg) (newOrgAccountsTable w).
Proof.
  intros Hsucceeded Hgov Hne Hprimary Hput Hroots Hfind Hmove Hdelete out.
  subst out.
  rewrite (handler_succeeded _ _ _ _ Hsucceeded), bind_case_SUCCEEDED.
  rewrite (case_SUCCEEDED_govcloud env status cfg _ gov roots rootOrg
             200 200 200) by done.
  unfold returned. simpl. split_and!; try done.
  - apply calls_since_app. simpl. by rewrite <- !app_assoc.
  - unfold upsert_mapping, mapping_of. simpl. rewrite Hprimary.
    by rewrite lookup_insert_eq.
  - intros other Hother. unfold upsert_mapping, mapping_of. simpl.
    rewrite Hprimary. by rewrite lookup_insert_ne.
Qed.

(** ** Invariant of the request table *)

(** X12. Rows stay stored under the email of their record: if every row
    of the request table is keyed by the email of its record before a run
    of invocations, so is every row after it. *)
Theorem run_keeps_keyed_by_email envs w :
  keyed_by_email (newOrgAccountsTable w) →
  keyed_by_email (newOrgAccountsTable (invocations envs w).2).
Proof.
  revert w. induction envs as [|env envs IH]; intros w Hkeyed; simpl; [done|].
  pose proof (handler_keeps_keyed_by_email env w Hkeyed) as Hstep.
  destruct (handler env w) as [r w']. simpl in Hstep.
  specialize (IH w' Hstep).
  by destruct (invocations envs w') as [rs w''].
Qed.

(** ** A pending answer without a request id *)

(** X13. When Create answers IN_PROGRESS without a request id (absent or
    empty) and the put is confirmed, the stored record still has no
    request id; an invocation that selects it again issues another Create
    for the same email. *)
Theorem pending_without_id_is_resubmitted
    env1 env2 w cfg rest response status :
  returned (getSingleAccountConfigFromTable env1 w) (Some cfg :: rest) →
  needs_create cfg = true →
  create_answer env1 cfg = inr response →
  CreateAccountStatus response = Some status →
  CreateAccountStatus.State status = Some "IN_PROGRESS" →
  CreateAccountStatus.Id status = None
  ∨ CreateAccountStatus.Id status = Some "" →
  let cfg' := set_createRequestId cfg (CreateAccountStatus.Id status) in
  put_accountConfig env1 (email cfg) cfg' = inr 200 →
  let w1 := (handler env1 w).2 in
  returned (handler env1 w) {| IsComplete := false |}
  ∧ newOrgAccountsTable w1 !! email cfg = Some cfg'
  ∧ ∀ rest',
      returned (getSingleAccountConfigFromTable env2 w1) (Some cfg' :: rest') →
      is_create_for (email cfg) (create_call env2 cfg') = true
      ∧ create_call env2 cfg' ∈ calls_since w1 (handler env2 w1).2.
Proof.
  intros Hsel Hneeds Hanswer Hstatus Hstate Hid cfg' Hput w1. subst w1.
  assert (Hneeds' : needs_create cfg' = true).
  { apply needs_create_true. subst cfg'. simpl. tauto. }
  rewrite (handler_selected_world _ _ _ _ Hsel).
  rewrite (handler_selected_create _ _ Hneeds).
  rewrite handler_create_answer, Hanswer, Hstatus, Hstate. simpl.
  fold cfg'. rewrite bind_updateAccountConfig. simpl.
  replace (email cfg') with (email cfg) by done. rewrite Hput. simpl.
  split_and!; [done | by rewrite lookup_insert_eq |].
  match goal with
  | |- ∀ rest', returned (_ _ ?w0) _ → _ => generalize w0
  end.
  intros w1 rest' Hsel'.
  rewrite (handler_selected_world _ _ _ _ Hsel').
  rewrite (handler_selected_create _ _ Hneeds').
  destruct (handler_create_summary env2 cfg' (logged Scan w1))
    as (_ & (more & Hlog & _) & _).
  split.
  - unfold create_call. case_bool_decide; simpl; by apply bool_decide_eq_true.
  - simpl in Hlog. rewrite <- app_assoc in Hlog.
    rewrite (calls_since_app _ _ _ Hlog).
    apply elem_of_cons; right. apply elem_of_cons; by left.
Qed.

(** ** Draining the table *)

Lemma always_succeeds_step env w :
  always_succeeds env →
  keyed_by_email (newOrgAccountsTable w) →
  newOrgAccountsTable w ≠ ∅ →
  ∃ key,
    is_Some (newOrgAccountsTable w !! key)
    ∧ (handler env w).1 = inr {| IsComplete := false |}
    ∧ newOrgAccountsTable (handler env w).2
      = delete key (newOrgAccountsTable w).
Proof.
  intros (Hscan & Hstatus & Hput & (roots & rootOrg & Hroots & Hfind)
          & Hmove & Hdelete) Hkeyed Hnonempty.
  destruct (Hscan (newOrgAccountsTable w)) as (out & Hout & Hitems).
  destruct (Items out) as [[|item items]|] eqn:Hout_items; try done.
  destruct Hitems as (cfg & Htext & Hitems).
  pose proof (Hkeyed _ _ Hitems) as Hkey.
  assert (Hsel : returned (getSingleAccountConfigFromTable env w) [Some cfg]).
  { unfold returned. rewrite getSingleAccountConfigFromTable_run, Hout.
    simpl. by rewrite Hout_items, Htext. }
  destruct (Hstatus cfg) as (response & status & Hanswer & Hst & Hstate).
  assert (Hsucceeded : succeeded_with env w cfg status).
  { split_and!; eauto. }
  exists (email cfg). split; [rewrite Hkey; by eauto|].
  rewrite (handler_succeeded _ _ _ _ Hsucceeded), bind_case_SUCCEEDED.
  destruct (Hmove (move_params_of status cfg rootOrg)) as [moveStatus Hmv].
  destruct (truthy (CreateAccountStatus.GovCloudAccountId status)) eqn:Hgov.
  - unfold truthy in Hgov.
    destruct (CreateAccountStatus.GovCloudAccountId status) as [gov|] eqn:Hg;
      [|done].
    apply negb_true_iff, bool_decide_eq_false in Hgov.
    destruct (Hput (mapping_of status gov)) as [mappingStatus Hmp].
    rewrite (case_SUCCEEDED_govcloud env status cfg _ gov roots rootOrg
               mappingStatus moveStatus 200) by done.
    simpl. by destruct (confirmed mappingStatus).
  - rewrite (case_SUCCEEDED_plain env status cfg _ roots rootOrg
               moveStatus 200) by done.
    done.
Qed.

Lemma keyed_by_email_delete key (table : gmap string AccountConfig) :
  keyed_by_email table → keyed_by_email (delete key table).
Proof.
  intros Hkeyed k cfg Hrow.
  apply lookup_delete_Some in Hrow as [_ Hrow]. eauto.
Qed.

(** X14. In an environment where every step goes through (faithful scan,
    every creation status SUCCEEDED, root found, calls resolved, deletes
    confirmed), a table of n rows keyed by email is drained by n
    invocations that return IsComplete = false, one row each; the next
    invocation returns IsComplete = true and the table is empty. *)
Theorem all_requests_drained env w :
  always_succeeds env →
  keyed_by_email (newOrgAccountsTable w) →
  let n := size (newOrgAccountsTable w) in
  let out := invocations (replicate (S n) env) w in
  out.1 = replicate n (inr {| IsComplete := false |})
          ++ [inr {| IsComplete := true |}]
  ∧ newOrgAccountsTable out.2 = ∅.
Proof.
  intros Henv Hkeyed n. subst n.
  remember (size (newOrgAccountsTable w)) as n eqn:Hn.
  revert w Hkeyed Hn. induction n as [|n IH]; intros w Hkeyed Hn.
  - symmetry in Hn. apply map_size_empty_inv in Hn.
    destruct Henv as (Hscan & _).
    pose proof (getSingleAccountConfigFromTable_empty env w Hscan Hn) as Hsel.
    simpl. rewrite handler_unfold. unfold returned in Hsel. rewrite Hsel.
    done.
  - assert (Hnonempty : newOrgAccountsTable w ≠ ∅).
    { apply map_size_non_empty_iff. lia. }
    destruct (always_succeeds_step env w Henv Hkeyed Hnonempty)
      as (key & Hrow & Hres & Htable).
    change (replicate (S (S n)) env) with (env :: replicate (S n) env).
    cbn [invocations].
    destruct (handler env w) as [r w'] eqn:Hhandler. simpl in Hres, Htable.
    subst r.
    assert (Hkeyed' : keyed_by_email (newOrgAccountsTable w')).
    { rewrite Htable. by apply keyed_by_email_delete. }
    assert (Hn' : n = size (newOrgAccountsTable w')).
    { rewrite Htable, map_size_delete_Some by done. lia. }
    specialize (IH w' Hkeyed' Hn').
    destruct (invocations (replicate (S n) env) w') as [rs w''].
    simpl in *. destruct IH as [-> ->]. done.
Qed.

(** ** Retrying after a failed move *)



(** * The further properties at the sample environments *)

Lemma more_scan_faithful created described moved :
  scan_faithful (More.env_of created described moved).
Proof.
  intros table. eexists. split; [reflexivity|]. simpl.
  destruct (map_to_list table) as [|[key cfg] rows] eqn:Hrows; simpl.
  - by apply map_to_list_empty_iff.
  - exists cfg. split; [done|].
    apply elem_of_map_to_list. rewrite Hrows. by left.
Qed.

Lemma more_env_at_once_succeeds : always_succeeds More.env_at_once.
Proof.
  split_and!.
  - apply more_scan_faithful.
  - intros cfg. exists (Sample.succeeded None), (Sample.succeeded_status None).
    split_and!; [|done|done].
    unfold status_answer, create_answer. simpl. by repeat case_match.
  - intros item. by exists 200.
  - by exists Sample.roots, Sample.default_root.
  - intros params. by exists 200.
  - done.
Qed.

Lemma more_world_keyed_by_email :
  keyed_by_email (newOrgAccountsTable More.world).
Proof.
  intros key cfg. simpl. rewrite lookup_insert.
  case_decide as Hkey; [intros [= <-]; by subst|].
  intros [<- <-]%lookup_singleton_Some. done.
Qed.



Lemma handler_one_status_request_witness :
  ∃ more,
    calls_since Sample.world (handler Sample.env Sample.world).2
    = Scan :: status_call Sample.env Sample.request :: more
    ∧ (length more ≤ 4)%nat.
Proof.
  destruct (proj2 (handler_one_status_request Sample.env Sample.world)
              Sample.request [])
    as (more & Hcalls & _ & _ & _ & Hlength).
  - vm_compute; reflexivity.
  - exists more. split; assumption.
Defined.


Lemma handler_touches_only_selected_row_witness :
  newOrgAccountsTable (handler Sample.env Sample.world).2 !! "b@x.com"
  = newOrgAccountsTable Sample.world !! "b@x.com".
Proof.
  apply (handler_touches_only_selected_row Sample.env Sample.world "b@x.com").
  intros cfg rest Hsel. vm_compute in Hsel. by simplify_eq.
Defined.

Lemma delete_only_after_move_witness :
  ∃ params statusCode,
    MoveAccount params
      ∈ calls_since Sample.world_submitted
          (handler Sample.env Sample.world_submitted).2
    ∧ moveAccount Sample.env params = inr statusCode.
Proof.
  destruct (delete_only_after_move
              Sample.env Sample.world_submitted "a@x.com")
    as (cfg & rest & status & pre & roots & rootOrg & statusCode
        & _ & _ & Hcalls & _ & _ & _ & Hmove).
  - vm_compute. do 4 (apply elem_of_cons; right). apply elem_of_cons. by left.
  - exists (move_params_of status cfg rootOrg), statusCode.
    split; [|exact Hmove].
    rewrite Hcalls. apply elem_of_app. right.
    apply elem_of_cons; right. apply elem_of_cons. by left.
Defined.

Lemma placement_failure_keeps_row_witness :
  threw (handler Sample.env_no_root Sample.world_submitted)
  ∧ newOrgAccountsTable (handler Sample.env_no_root Sample.world_submitted).2
    = newOrgAccountsTable Sample.world_submitted.
Proof.
  destruct (placement_failure_keeps_row
              Sample.env_no_root Sample.world_submitted Sample.submitted
              (Sample.succeeded_status None))
    as (Hthrew & Htable & _).
  - split_and!.
    + exists []. vm_compute; reflexivity.
    + exists (Sample.succeeded None). split; reflexivity.
    + reflexivity.
  - right; left. exists Sample.no_roots. split; [reflexivity|].
    apply find_rootOrg_None. reflexivity.
  - split; [exact Hthrew | exact Htable].
Defined.

Lemma other_state_is_fatal_witness :
  (handler More.env_failed Sample.world_submitted).1 =
    inl (JsError
      "Could not create account a@x.com. Response state: FAILED, Failure reason: EMAIL_ALREADY_EXISTS")
  ∧ newOrgAccountsTable (handler More.env_failed Sample.world_submitted).2
    = newOrgAccountsTable Sample.world_submitted.
Proof.
  destruct (other_state_is_fatal
              More.env_failed Sample.world_submitted Sample.submitted []
              More.failed)
    as (Hthrown & _ & Htable & _).
  - vm_compute; reflexivity.
  - reflexivity.
  - discriminate.
  - discriminate.
  - split; [exact Hthrown | exact Htable].
Defined.

Lemma completion_writes_nothing_witness :
  handler Sample.env More.empty_world
  = (inr {| IsComplete := true |}, logged Scan More.empty_world).
Proof.
  apply (proj1 (completion_writes_nothing Sample.env More.empty_world)).
  vm_compute; reflexivity.
Defined.

Lemma succeeded_moves_and_deletes_witness :
  returned (handler Sample.env Sample.world_submitted)
    {| IsComplete := false |}
  ∧ newOrgAccountsTable (handler Sample.env Sample.world_submitted).2
    = delete "a@x.com" (newOrgAccountsTable Sample.world_submitted).
Proof.
  destruct (succeeded_moves_and_deletes
              Sample.env Sample.world_submitted Sample.submitted
              (Sample.succeeded_status None) Sample.roots Sample.default_root)
    as (Hreturned & _ & Htable & _).
  - split_and!.
    + exists []. vm_compute; reflexivity.
    + exists (Sample.succeeded None). split; reflexivity.
    + reflexivity.
  - reflexivity.
  - reflexivity.
  - reflexivity.
  - reflexivity.
  - reflexivity.
  - split; [exact Hreturned | exact Htable].
Defined.

Lemma succeeded_with_govcloud_stores_mapping_witness :
  govCloudAccountMappingTable
    (handler Sample.env_govcloud Sample.world_submitted).2 !! "111"
  = Some Sample.mapping.
Proof.
  destruct (succeeded_with_govcloud_stores_mapping
              Sample.env_govcloud Sample.world_submitted Sample.submitted
              (Sample.succeeded_status (Some "gov-1")) "gov-1" "111"
              Sample.roots Sample.default_root)
    as (_ & _ & Hrow & _).
  - split_and!.
    + exists []. vm_compute; reflexivity.
    + exists (Sample.succeeded (Some "gov-1")). split; reflexivity.
    + reflexivity.
  - reflexivity.
  - discriminate.
  - reflexivity.
  - reflexivity.
  - reflexivity.
  - reflexivity.
  - reflexivity.
  - reflexivity.
  - exact Hrow.
Defined.

Lemma run_keeps_keyed_by_email_witness :
  keyed_by_email
    (newOrgAccountsTable
       (invocations [Sample.env; Sample.env_waiting] More.world).2).
Proof.
  apply (run_keeps_keyed_by_email [Sample.env; Sample.env_waiting] More.world).
  apply more_world_keyed_by_email.
Defined.

Lemma pending_without_id_is_resubmitted_witness :
  let w1 := (handler More.env_no_id Sample.world).2 in
  newOrgAccountsTable w1 !! "a@x.com" = Some Sample.request
  ∧ CreateAccount (create_params Sample.env Sample.request)
      ∈ calls_since w1 (handler Sample.env w1).2.
Proof.
  destruct (pending_without_id_is_resubmitted
              More.env_no_id Sample.env Sample.world Sample.request []
              {| CreateAccountStatus := Some More.pending_without_id |}
              More.pending_without_id)
    as (_ & Hrow & Hagain).
  - vm_compute; reflexivity.
  - reflexivity.
  - reflexivity.
  - reflexivity.
  - reflexivity.
  - by left.
  - reflexivity.
  - split; [exact Hrow|].
    apply (Hagain []). vm_compute; reflexivity.
Defined.

Lemma all_requests_drained_witness :
  (invocations [More.env_at_once; More.env_at_once; More.env_at_once]
     More.world).1
  = [ inr {| IsComplete := false |};
      inr {| IsComplete := false |};
      inr {| IsComplete := true |} ].
Proof.
  destruct (all_requests_drained More.env_at_once More.world) as [Hrun _].
  - apply more_env_at_once_succeeds.
  - apply more_world_keyed_by_email.
  - exact Hrun.
Defined.

